(** * aasemble build service: models.py

    A shallow embedding of [aasemble/django/apps/buildsvc/models.py]: the
    polling of a package source, the build attempt ([build_real]), the
    publishing of upload manifests into the repository and the per-build
    log files.

    The Python code works on mutable model instances, a database, the file
    system, the [logging] registry and external programs (git, gpg,
    reprepro, the package builder).  All of these are fields of one
    [World]; a method is a function from worlds to a result (a value or a
    raised exception) and the world it leaves behind.  What the external
    programs answer is not decided by the code: it is read from an [Env]
    of oracles indexed by a clock that advances at every interaction. *)

From Stdlib Require Import ZArith Ascii String DecimalString.
From stdpp Require Import base option list gmap strings fin_maps.

Open Scope string_scope.
Open Scope Z_scope.
Open Scope list_scope.

(** ** Python strings *)

Module Py.

(** [s.split(sep)] for a one-character separator: never an empty
    list, [''.split(sep) == ['']]. *)
Fixpoint split (sep : ascii) (s : string) : list string :=
  match s with
  | EmptyString => [EmptyString]
  | String a r =>
      if Ascii.eqb a sep then EmptyString :: split sep r
      else match split sep r with
           | h :: t => String a h :: t
           | [] => [String a EmptyString]
           end
  end.

(** [l[0]] and [l[-1]] of a list that [split] returned. *)
Definition first (l : list string) : string := hd EmptyString l.
Definition last (l : list string) : string := List.last l EmptyString.

Definition startswith (s p : string) : bool := String.prefix p s.

(** [s.endswith(suf)]: one of the tails of [s] is [suf]. *)
Fixpoint endswith (s suf : string) : bool :=
  String.eqb s suf
  || match s with
     | String _ r => endswith r suf
     | EmptyString => false
     end.

(** [sep.join(l)] *)
Definition join (sep : string) (l : list string) : string :=
  String.concat sep l.

(** [s.replace(a, b)] for one-character [a] and [b]. *)
Fixpoint replace (a b : ascii) (s : string) : string :=
  match s with
  | EmptyString => EmptyString
  | String c r =>
      String (if Ascii.eqb c a then b else c) (replace a b r)
  end.

Definition is_space (c : ascii) : bool :=
  let n := nat_of_ascii c in
  ((9 <=? n) && (n <=? 13) || (n =? 32))%nat.

Fixpoint lstrip (s : string) : string :=
  match s with
  | String c r => if is_space c then lstrip r else s
  | EmptyString => EmptyString
  end.

Fixpoint rstrip (s : string) : string :=
  match s with
  | EmptyString => EmptyString
  | String c r =>
      match rstrip r with
      | EmptyString => if is_space c then EmptyString
                       else String c EmptyString
      | r' => String c r'
      end
  end.

(** [s.strip()] *)
Definition strip (s : string) : string := rstrip (lstrip s).

(** [bool(x)] of a value that is a string or [None]. *)
Definition truthy (x : option string) : bool :=
  match x with
  | Some (String _ _) => true
  | _ => false
  end.

(** ['%s' % x] of a value that is a string or [None]. *)
Definition str (x : option string) : string :=
  match x with
  | Some s => s
  | None => "None"
  end.

(** ['%s' % n] of an integer. *)
Definition str_of_int (n : Z) : string :=
  NilZero.string_of_int (Z.to_int n).

(** [filter(bool, l)] on a list of strings. *)
Definition nonempty (l : list string) : list string :=
  List.filter (fun s => negb (String.eqb s "")) l.

End Py.

(** ** os.path *)

Module OsPath.

(** [posixpath.join(a, b)] *)
Definition join (a b : string) : string :=
  if Py.startswith b "/" then b
  else if String.eqb a "" || Py.endswith a "/" then a +:+ b
  else a +:+ "/" +:+ b.

Definition join3 (a b c : string) : string := join (join a b) c.

(** Characters of [s] up to and including its last ["/"], reversed
    input and output: the helper of [dirname]. *)
Fixpoint from_slash (r : list ascii) : list ascii :=
  match r with
  | [] => []
  | c :: t => if Ascii.eqb c "/" then r else from_slash t
  end.

Fixpoint drop_slashes (r : list ascii) : list ascii :=
  match r with
  | c :: t => if Ascii.eqb c "/" then drop_slashes t else r
  | [] => []
  end.

(** [posixpath.dirname(p)]: the head up to the last slash, without its
    trailing slashes unless it consists of slashes only. *)
Definition dirname (p : string) : string :=
  let head := from_slash (List.rev (list_ascii_of_string p)) in
  match drop_slashes head with
  | [] => string_of_list_ascii (List.rev head)
  | h => string_of_list_ascii (List.rev h)
  end.

(** [p] is [d] or lies below it. *)
Definition under (d p : string) : bool :=
  String.eqb p d || Py.startswith p (d +:+ "/").

End OsPath.

(** ** The models *)

Inductive Driver := FakeDriver | RepreproDriver.

Record Repository := {
  username : string;            (* user.username *)
  repo_name : string;           (* name *)
  key_id : option string;
}.

Record Series := {
  series_name : string;
}.

Record ExternalDependency := {
  url : string;
  dep_series : string;          (* series *)
  components : option string;   (* null=True *)
  key : string;
}.

Record PackageSource := {
  git_url : string;
  branch : string;
  series : Series;
  last_seen_revision : option string;
  last_built_version : option string;
  last_built_name : option string;
  build_counter : Z;
}.

Record BuildRecord := {
  br_id : option nat;               (* primary key, None until saved *)
  version : option string;
  br_build_counter : Z;             (* build_counter *)
  sha : option string;
  _logger : option string;          (* name of the Logger in logging's registry *)
  _saved_logpath : option string;
}.

(** *** ExternalDependency.deb_line *)

Definition deb_line (d : ExternalDependency) : string :=
  "deb " +:+ url d +:+ " " +:+ dep_series d +:+ " " +:+ Py.str (components d).

(** *** PackageSource.name *)

Definition name (s : PackageSource) : string :=
  Py.replace "_" "-" (Py.last (Py.split "/" (git_url s))).

(** *** PackageSource.long_name

    [urlparse] comes from the standard library; the path it finds in an
    URL is a parameter. *)

Section Names.

Variable urlparse_path : string -> string.

Definition long_name (s : PackageSource) : string :=
  Py.join "_" (Py.nonempty (Py.split "/" (urlparse_path (git_url s)))).

(** *** BuildRecord.logpath *)

Definition logpath (source : PackageSource) (b : BuildRecord) : string :=
  if Py.truthy (version b) then
    OsPath.join (long_name source)
      (long_name source +:+ "_" +:+ Py.str (version b) +:+ ".log")
  else
    OsPath.join (long_name source)
      (long_name source +:+ "_" +:+ Py.str_of_int (br_build_counter b)
         +:+ ".tmp.log").

End Names.

(** The path of an URL of the shape [scheme://host/path]: what [urlparse]
    answers for the URLs used in the examples below. *)
Fixpoint after_scheme (s : string) : string :=
  match s with
  | String ":" (String "/" (String "/" r)) => r
  | String _ r => after_scheme r
  | EmptyString => EmptyString
  end.

Fixpoint from_first_slash (s : string) : string :=
  match s with
  | String "/" _ => s
  | String _ r => from_first_slash r
  | EmptyString => EmptyString
  end.

Definition simple_url_path (u : string) : string :=
  from_first_slash (after_scheme u).

(** ** Upload manifests (deb822.Changes)

    A parsed [.changes] file: its single-valued fields and its
    multi-valued sections, each a list of file entries (dicts with a
    ['name'] and further columns). *)

Module Deb822.

Record FileEntry := {
  name : string;
  columns : list (string * string);   (* md5sum, sha1, sha256, size, ... *)
}.

Record Changes := {
  fields : gmap string string;
  sections : gmap string (list FileEntry);
}.

End Deb822.

(** ** The world *)

(** What a path of the file system holds. *)
Inductive Node :=
| Dir
| Log (lines : list string)             (* text, appended line by line *)
| Raw (content : string)                (* text, written in one piece *)
| Manifest (c : Deb822.Changes).        (* an upload manifest *)

(** One manifest that the repository tool has taken in. *)
Record Upload := {
  distribution : string;
  changes_file : string;
  manifest : Deb822.Changes;
}.

(** What the code does to the outside, in the order it does it. *)
Inductive Event :=
| ECmd (argv : list string)             (* run_cmd *)
| ERender (target : string)             (* recursive_render *)
| EGenerateKey                          (* driver.generate_key() *)
| EWrite (path : string)                (* open(path, 'w') ... write *)
| ERename (src dst : string)            (* os.rename *)
| EMkdtemp (path : string)              (* tempfile.mkdtemp *)
| ERmtree (path : string).              (* shutil.rmtree *)

Record World := {
  clock : nat;                          (* interactions with the outside so far *)
  self : PackageSource;                 (* the PackageSource instance *)
  self_row : PackageSource;             (* ... and its row in the database *)
  repository : Repository;              (* self.series.repository *)
  repository_row : Repository;
  br : BuildRecord;                     (* the BuildRecord instance of the attempt *)
  br_rows : list BuildRecord;           (* the BuildRecord table *)
  fs : gmap string Node;                (* the file system *)
  loggers : gmap string (list string);  (* logging: logger name -> paths of its FileHandlers *)
  pool : list Upload;                   (* reprepro: what has been included *)
  index : list Upload;                  (* reprepro: what the exported indices list *)
  trace : list Event;
}.

Definition set_clock (f : nat -> nat) (w : World) : World :=
  {| clock := f (clock w); self := self w; self_row := self_row w;
     repository := repository w; repository_row := repository_row w;
     br := br w; br_rows := br_rows w; fs := fs w; loggers := loggers w;
     pool := pool w; index := index w; trace := trace w |}.

Definition set_self (f : PackageSource -> PackageSource) (w : World) : World :=
  {| clock := clock w; self := f (self w); self_row := self_row w;
     repository := repository w; repository_row := repository_row w;
     br := br w; br_rows := br_rows w; fs := fs w; loggers := loggers w;
     pool := pool w; index := index w; trace := trace w |}.

Definition set_self_row (f : PackageSource -> PackageSource) (w : World) : World :=
  {| clock := clock w; self := self w; self_row := f (self_row w);
     repository := repository w; repository_row := repository_row w;
     br := br w; br_rows := br_rows w; fs := fs w; loggers := loggers w;
     pool := pool w; index := index w; trace := trace w |}.

Definition set_repository (f : Repository -> Repository) (w : World) : World :=
  {| clock := clock w; self := self w; self_row := self_row w;
     repository := f (repository w); repository_row := repository_row w;
     br := br w; br_rows := br_rows w; fs := fs w; loggers := loggers w;
     pool := pool w; index := index w; trace := trace w |}.

Definition set_repository_row (f : Repository -> Repository) (w : World) : World :=
  {| clock := clock w; self := self w; self_row := self_row w;
     repository := repository w; repository_row := f (repository_row w);
     br := br w; br_rows := br_rows w; fs := fs w; loggers := loggers w;
     pool := pool w; index := index w; trace := trace w |}.

Definition set_br (f : BuildRecord -> BuildRecord) (w : World) : World :=
  {| clock := clock w; self := self w; self_row := self_row w;
     repository := repository w; repository_row := repository_row w;
     br := f (br w); br_rows := br_rows w; fs := fs w; loggers := loggers w;
     pool := pool w; index := index w; trace := trace w |}.

Definition set_br_rows (f : list BuildRecord -> list BuildRecord) (w : World) : World :=
  {| clock := clock w; self := self w; self_row := self_row w;
     repository := repository w; repository_row := repository_row w;
     br := br w; br_rows := f (br_rows w); fs := fs w; loggers := loggers w;
     pool := pool w; index := index w; trace := trace w |}.

Definition set_fs (f : gmap string Node -> gmap string Node) (w : World) : World :=
  {| clock := clock w; self := self w; self_row := self_row w;
     repository := repository w; repository_row := repository_row w;
     br := br w; br_rows := br_rows w; fs := f (fs w); loggers := loggers w;
     pool := pool w; index := index w; trace := trace w |}.

Definition set_loggers
    (f : gmap string (list string) -> gmap string (list string)) (w : World) : World :=
  {| clock := clock w; self := self w; self_row := self_row w;
     repository := repository w; repository_row := repository_row w;
     br := br w; br_rows := br_rows w; fs := fs w; loggers := f (loggers w);
     pool := pool w; index := index w; trace := trace w |}.

Definition set_pool (f : list Upload -> list Upload) (w : World) : World :=
  {| clock := clock w; self := self w; self_row := self_row w;
     repository := repository w; repository_row := repository_row w;
     br := br w; br_rows := br_rows w; fs := fs w; loggers := loggers w;
     pool := f (pool w); index := index w; trace := trace w |}.

Definition set_index (f : list Upload -> list Upload) (w : World) : World :=
  {| clock := clock w; self := self w; self_row := self_row w;
     repository := repository w; repository_row := repository_row w;
     br := br w; br_rows := br_rows w; fs := fs w; loggers := loggers w;
     pool := pool w; index := f (index w); trace := trace w |}.

Definition record (e : Event) (w : World) : World :=
  {| clock := clock w; self := self w; self_row := self_row w;
     repository := repository w; repository_row := repository_row w;
     br := br w; br_rows := br_rows w; fs := fs w; loggers := loggers w;
     pool := pool w; index := index w; trace := trace w ++ [e] |}.

Definition tick : World -> World := set_clock S.

(** ** Methods: state and exceptions *)

Inductive exn :=
| CalledProcessError (argv : list string)
| OSError (path : string)
| IOError (path : string)
| BuilderError (msg : string).

Inductive result (A : Type) :=
| Return (a : A)
| Raise (e : exn).
Arguments Return {A} a.
Arguments Raise {A} e.

Definition M (A : Type) : Type := World -> result A * World.

Definition ret {A} (a : A) : M A := fun w => (Return a, w).

Definition raise {A} (e : exn) : M A := fun w => (Raise e, w).

Definition bind {A B} (m : M A) (k : A -> M B) : M B :=
  fun w =>
    match m w with
    | (Return a, w') => k a w'
    | (Raise e, w') => (Raise e, w')
    end.

Notation "x <- m ;; k" := (bind m (fun x => k))
  (at level 100, m at next level, right associativity).
Notation "m ;; k" := (bind m (fun _ => k))
  (at level 100, right associativity).

(** Reading and changing the world never raise. *)
Definition gets {A} (f : World -> A) : M A := fun w => (Return (f w), w).
Definition modify (f : World -> World) : M unit := fun w => (Return tt, f w).

(** [try: body  except: handler(e)] *)
Definition try_except {A} (body : M A) (handler : exn -> M A) : M A :=
  fun w =>
    match body w with
    | (Return a, w') => (Return a, w')
    | (Raise e, w') => handler e w'
    end.

(** [try: body  finally: final]: [final] runs on both ways out, and the
    exception of [body] goes on after it. *)
Definition try_finally {A} (body : M A) (final : M unit) : M A :=
  fun w =>
    match body w with
    | (r, w') =>
        match final w' with
        | (Return _, w'') => (r, w'')
        | (Raise e, w'') => (Raise e, w'')
        end
    end.

(** [for x in l: body(x)] *)
Fixpoint for_each {A} (l : list A) (body : A -> M unit) : M unit :=
  match l with
  | [] => ret tt
  | x :: r => body x ;; for_each r body
  end.

Definition when (b : bool) (m : M unit) : M unit := if b then m else ret tt.

(** ** The outside *)

(** What a subprocess does: its exit status and output, what [run_cmd]
    logs about it, and the files it leaves below its working directory
    (paths relative to it). *)
Record Outcome := {
  returncode : Z;
  stdout : string;
  logged : list string;
  created : list (string * Node);
}.

(** What the package builder does with the BuildRecord, the
    PackageSource and the working area it is handed. *)
Inductive BuilderAction :=
| BLog (msg : string)                   (* build_record.logger.info(msg) *)
| BSetVersion (v : string)              (* build_record.version = v; build_record.save() *)
| BSetBuilt (n v : string)              (* source.last_built_name, last_built_version = n, v; source.save() *)
| BWrite (rel : string) (n : Node).     (* a file below the working area *)

Record Env := {
  (* django.conf.settings *)
  BUILDSVC_REPOS_BASE_DIR : string;
  BUILDSVC_REPOS_BASE_PUBLIC_DIR : string;
  BUILDSVC_REPODRIVER : Driver;
  (* urllib.parse.urlparse(u).path *)
  urlparse_path : string -> string;
  (* the outside at each instant *)
  asctime : nat -> string;                            (* logging's time stamp *)
  mkdtemp_name : nat -> string;                       (* the name tempfile picks *)
  subprocess : nat -> list string -> Outcome;         (* the command run then *)
  choose_builder : nat -> string -> option (list BuilderAction * bool);
      (* pkgbuild.choose_builder(builddir): no builder, or what its
         build() does and whether it ends well *)
}.

Section Methods.

Variable env : Env.

(** *** File system *)

Definition exists_ (p : string) : M bool :=
  gets (fun w => match fs w !! p with Some _ => true | None => false end).

Definition isdir (p : string) : M bool :=
  gets (fun w => match fs w !! p with Some Dir => true | _ => false end).

(** [os.makedirs(d)]: refuses a path that exists.  Only [d] itself is
    entered in the file system, not the directories above it. *)
Definition makedirs (d : string) : M unit :=
  e <- exists_ d ;;
  if e then raise (OSError d) else modify (set_fs (insert d Dir)).

Definition ensure_dir (d : string) : M string :=
  b <- isdir d ;;
  when (negb b) (makedirs d) ;;
  ret d.

(** [with open(p, 'w') as fp: fp.write(...)] *)
Definition write_file (p : string) (n : Node) : M unit :=
  modify (fun w => record (EWrite p) (set_fs (insert p n) w)).

(** [os.rename(src, dst)]: a file at [dst] is replaced, a directory
    there is refused. *)
Definition rename (src dst : string) : M unit :=
  n <- gets (fun w => fs w !! src) ;;
  d <- isdir dst ;;
  match n with
  | None => raise (OSError src)
  | Some n =>
      if d then raise (OSError dst)
      else
        modify (fun w => record (ERename src dst)
                           (set_fs (fun m => <[dst := n]> (delete src m)) w))
  end.

(** [tempfile.mkdtemp()] *)
Definition mkdtemp : M string :=
  d <- gets (fun w => mkdtemp_name env (clock w)) ;;
  modify (fun w => record (EMkdtemp d) (tick (set_fs (insert d Dir) w))) ;;
  ret d.

(** [shutil.rmtree(d)]: [d] and all below it. *)
Definition rmtree (d : string) : M unit :=
  modify (fun w =>
    record (ERmtree d)
      (set_fs (filter (fun kv => negb (OsPath.under d kv.1))) w)).

(** [os.listdir(d)]: the names directly below [d]. *)
Definition entry_of (d p : string) : option string :=
  let pre := d +:+ "/" in
  if Py.startswith p pre then
    let n := String.substring (String.length pre)
               (String.length p - String.length pre) p in
    match Py.split "/" n with
    | [String c r] => Some (String c r)
    | _ => None
    end
  else None.

Definition listdir (d : string) : M (list string) :=
  gets (fun w => omap (fun kv => entry_of d kv.1) (map_to_list (fs w))).

(** *** logging *)

(** A FileHandler writing one formatted line; the file must still be at
    the path the handler opened. *)
Definition append_line (line : string) (m : gmap string Node) (h : string)
    : gmap string Node :=
  match m !! h with
  | Some (Log l) => <[h := Log (l ++ [line])]> m
  | _ => m
  end.

(** [logger.info(msg)] and the like, with the
    ['%(asctime)s: %(message)s'] formatter of the build logs. *)
Definition emit (logger : option string) (msg : string) : M unit :=
  match logger with
  | None => ret tt
  | Some n =>
      modify (fun w =>
        let line := asctime env (clock w) +:+ ": " +:+ msg in
        let hs := default [] (loggers w !! n) in
        tick (set_fs (fun m => foldl (append_line line) m hs) w))
  end.

(** [logging.FileHandler(p)]: opens [p] for appending. *)
Definition open_append (p : string) : M unit :=
  n <- gets (fun w => fs w !! p) ;;
  match n with
  | None => modify (set_fs (insert p (Log [])))
  | Some Dir => raise (IOError p)
  | Some _ => ret tt
  end.

(** [for handler in logger.handlers: logger.removeHandler(handler)]:
    the list shrinks under the loop's index. *)
Fixpoint remove_handlers (fuel i : nat) (hs : list string) : list string :=
  match fuel with
  | O => hs
  | S fuel =>
      match hs !! i with
      | None => hs
      | Some _ => remove_handlers fuel (S i) (delete i hs)
      end
  end.

(** *** run_cmd *)

(** Modelled from the spec: [run_cmd] of [aasemble.django.utils] is not
    among the sources.  It runs the command in [cwd], reports its output
    to [logger] as the command goes, raises when the command exits with
    a status other than zero and returns its standard output otherwise.
    No [logger] stands for the module's [LOG], whose lines reach no
    file of the model. *)
Definition run_cmd (cmd : list string) (cwd : option string)
    (logger : option string) : M string :=
  o <- gets (fun w => subprocess env (clock w) cmd) ;;
  modify (fun w => record (ECmd cmd) (tick w)) ;;
  match cwd with
  | Some d =>
      modify (set_fs (fun m =>
        foldl (fun m kv => <[OsPath.join d kv.1 := kv.2]> m) m (created o)))
  | None => ret tt
  end ;;
  for_each (logged o) (emit logger) ;;
  if returncode o =? 0 then ret (stdout o)
  else raise (CalledProcessError cmd).

(** Modelled from the spec: [recursive_render] of
    [aasemble.django.utils] is not among the sources.  It renders the
    configuration templates into the target directory; the rendered
    files are not kept in the file system of the model. *)
Definition recursive_render (template target : string) : M unit :=
  modify (record (ERender target)).

(** *** Database *)

Definition save_self : M unit :=
  modify (fun w => set_self_row (fun _ => self w) w).

Definition save_repository : M unit :=
  modify (fun w => set_repository_row (fun _ => repository w) w).

(** [br.save()]: an insert that hands out the primary key, then
    updates. *)
Definition save_br : M unit :=
  modify (fun w =>
    match br_id (br w) with
    | None =>
        let b := {| br_id := Some (length (br_rows w));
                    version := version (br w);
                    br_build_counter := br_build_counter (br w);
                    sha := sha (br w);
                    _logger := _logger (br w);
                    _saved_logpath := _saved_logpath (br w) |} in
        set_br_rows (fun rows => rows ++ [b]) (set_br (fun _ => b) w)
    | Some i => set_br_rows (fun rows => <[i := br w]> rows) w
    end).

(** *** remove_ddebs_from_changes *)

Definition not_ddeb (f : Deb822.FileEntry) : bool :=
  negb (Py.endswith (Deb822.name f) ".ddeb").

Definition strip_section (changes : Deb822.Changes) (section : string)
    : Deb822.Changes :=
  match Deb822.sections changes !! section with
  | None => changes
  | Some l =>
      {| Deb822.fields := Deb822.fields changes;
         Deb822.sections :=
           <[section := List.filter not_ddeb l]> (Deb822.sections changes) |}
  end.

Definition ddeb_sections : list string :=
  ["Checksums-Sha1"; "Checksums-Sha256"; "Files"].

Definition strip_ddebs (changes : Deb822.Changes) : Deb822.Changes :=
  foldl strip_section changes ddeb_sections.

Definition remove_ddebs_from_changes (changes_file : string) : M unit :=
  n <- gets (fun w => fs w !! changes_file) ;;
  match n with
  | Some (Manifest changes) =>
      write_file changes_file (Manifest (strip_ddebs changes))
  | _ => raise (IOError changes_file)
  end.

(** *** Repository drivers *)

Definition key_of_line (l : string) : string :=
  nth 2 (Py.split " " l) "".

(** [generate_key] of the two drivers.  The input that the template
    renders for gpg does not reach the model: what gpg answers is the
    oracle's. *)
Definition generate_key (d : Driver) : M (option string) :=
  modify (record EGenerateKey) ;;
  match d with
  | FakeDriver => ret (Some "FAKEID")
  | RepreproDriver =>
      output <- run_cmd ["gpg"; "--batch"; "--gen-key"] None None ;;
      ret (key_of_line <$>
             List.find (fun l => Py.startswith l "gpg: key ")
                       (Py.split "010" output))
  end.

Definition get_repo_driver : Driver := BUILDSVC_REPODRIVER env.

(** *** Repository *)

Definition set_key_id (k : option string) (r : Repository) : Repository :=
  {| username := username r; repo_name := repo_name r; key_id := k |}.

Definition ensure_key : M unit :=
  r <- gets repository ;;
  when (negb (Py.truthy (key_id r)))
    (k <- generate_key get_repo_driver ;;
     modify (set_repository (set_key_id k)) ;;
     save_repository).

Definition basedir : M string :=
  r <- gets repository ;;
  ensure_dir (OsPath.join3 (BUILDSVC_REPOS_BASE_DIR env) (username r) (repo_name r)).

Definition confdir : M string :=
  b <- basedir ;; ret (OsPath.join b "conf").

Definition outdir : M string :=
  r <- gets repository ;;
  ret (OsPath.join3 (BUILDSVC_REPOS_BASE_PUBLIC_DIR env) (username r) (repo_name r)).

Definition buildlogdir : M string :=
  o <- outdir ;; ensure_dir (OsPath.join o "buildlogs").

Definition gpghome : M string :=
  b <- basedir ;; ret (OsPath.join b ".gnupg").

Definition ensure_directory_structure : M unit :=
  b <- basedir ;;
  recursive_render "templates/buildsvc/reprepro" b.

(** Modelled from the spec: the repository tool is an external program.
    A successful [include] takes the manifest in as it then stands in
    the file; a successful [export] makes the indices list what has
    been included; a failed call changes neither. *)
Definition reprepro_effect (args : list string) : M unit :=
  match args with
  | ["export"] => modify (fun w => set_index (fun _ => pool w) w)
  | ["--ignore=wrongdistribution"; "include"; dist; file] =>
      modify (fun w =>
        match fs w !! file with
        | Some (Manifest c) =>
            set_pool (fun p => p ++ [{| distribution := dist;
                                        changes_file := file;
                                        manifest := c |}]) w
        | _ => w
        end)
  | _ => ret tt
  end.

Definition _reprepro (args : list string) : M string :=
  _ <- gpghome ;;                       (* env = {'GNUPG_HOME': self.gpghome()} *)
  b <- basedir ;;
  out <- run_cmd (["reprepro"; "-b"; b] ++ args) None None ;;
  reprepro_effect args ;;
  ret out.

Definition export_key : M unit :=
  o <- outdir ;;
  let keypath := OsPath.join o "repo.key" in
  e <- exists_ keypath ;;
  when (negb e)
    (r <- gets repository ;;
     output <- run_cmd ["gpg"; "-a"; "--export"; Py.str (key_id r)] None None ;;
     write_file keypath (Raw output)).

Definition export : M unit :=
  ensure_key ;;
  ensure_directory_structure ;;
  export_key ;;
  _reprepro ["export"] ;;
  ret tt.

Definition process_changes (series_name changes_file : string) : M unit :=
  ensure_directory_structure ;;
  remove_ddebs_from_changes changes_file ;;
  _reprepro ["--ignore=wrongdistribution"; "include"; series_name; changes_file] ;;
  export.

(** *** Series *)

Definition Series_process_changes (changes_file : string) : M unit :=
  s <- gets self ;;
  process_changes (series_name (series s)) changes_file.

Definition Series_export : M unit := export.

(** *** PackageSource.poll *)

Definition set_last_seen_revision (r : option string) (s : PackageSource)
    : PackageSource :=
  {| git_url := git_url s; branch := branch s; series := series s;
     last_seen_revision := r;
     last_built_version := last_built_version s;
     last_built_name := last_built_name s;
     build_counter := build_counter s |}.

Definition poll : M bool :=
  s <- gets self ;;
  stdout <- run_cmd ["git"; "ls-remote"; git_url s; "refs/heads/" +:+ branch s]
              None None ;;
  let sha := Py.first (Py.split "009" stdout) in
  s <- gets self ;;
  if bool_decide (Some sha = last_seen_revision s) then ret false
  else
    modify (set_self (set_last_seen_revision (Some sha))) ;;
    save_self ;;
    ret true.

(** *** PackageSource.checkout *)

Definition checkout (sha : option string) (logger : option string)
    : M (string * string * string) :=
  tmpdir <- mkdtemp ;;
  let builddir := OsPath.join tmpdir "build" in
  try_except
    (s <- gets self ;;
     run_cmd ["git"; "clone"; git_url s; "-b"; branch s; "build"]
       (Some tmpdir) logger ;;
     when (Py.truthy sha)
       (run_cmd ["git"; "reset"; "--hard"; Py.str sha] (Some builddir) logger ;;
        ret tt) ;;
     stdout <- run_cmd ["git"; "rev-parse"; "HEAD"] (Some builddir) logger ;;
     ret (tmpdir, builddir, Py.strip stdout))
    (fun e => rmtree tmpdir ;; raise e).

(** *** BuildRecord *)

Definition new_BuildRecord (counter : Z) : BuildRecord :=
  {| br_id := None; version := Some ""; br_build_counter := counter;
     sha := None; _logger := None; _saved_logpath := None |}.

Definition set_version (v : option string) (b : BuildRecord) : BuildRecord :=
  {| br_id := br_id b; version := v;
     br_build_counter := br_build_counter b; sha := sha b;
     _logger := _logger b; _saved_logpath := _saved_logpath b |}.

Definition set_sha (x : option string) (b : BuildRecord) : BuildRecord :=
  {| br_id := br_id b; version := version b;
     br_build_counter := br_build_counter b; sha := x;
     _logger := _logger b; _saved_logpath := _saved_logpath b |}.

Definition set_logging (l p : option string) (b : BuildRecord) : BuildRecord :=
  {| br_id := br_id b; version := version b;
     br_build_counter := br_build_counter b; sha := sha b;
     _logger := l; _saved_logpath := p |}.

Definition BuildRecord_logpath : M string :=
  gets (fun w => logpath (urlparse_path env) (self w) (br w)).

Definition buildlog : M string :=
  d <- buildlogdir ;;
  l <- BuildRecord_logpath ;;
  let path := OsPath.join d l in
  let dirpath := OsPath.dirname path in
  b <- isdir dirpath ;;
  when (negb b) (makedirs dirpath) ;;
  ret path.

Definition logger_name : M string :=
  gets (fun w =>
    "buildsvc.pkgbuild." +:+ name (self w) +:+ "_"
      +:+ Py.str_of_int (br_build_counter (br w))).

(** The [logger] property. *)
Definition logger : M (option string) :=
  logpath <- buildlog ;;
  saved <- gets (fun w => _saved_logpath (br w)) ;;
  when (negb (bool_decide (Some logpath = saved)))
    (match saved with
     | Some old =>
         e <- exists_ old ;;
         when (Py.truthy saved && e)
           (new <- buildlog ;; rename old new)
     | None => ret tt
     end ;;
     n <- logger_name ;;
     modify (set_loggers (fun m =>
       let hs := default [] (m !! n) in
       <[n := remove_handlers (length hs) 0 hs]> m)) ;;
     open_append logpath ;;
     modify (set_loggers (fun m => <[n := default [] (m !! n) ++ [logpath]]> m)) ;;
     modify (set_br (set_logging (Some n) (Some logpath)))) ;;
  gets (fun w => _logger (br w)).

(** *** The builder *)

Definition set_built (n v : string) (s : PackageSource) : PackageSource :=
  {| git_url := git_url s; branch := branch s; series := series s;
     last_seen_revision := last_seen_revision s;
     last_built_version := Some v;
     last_built_name := Some n;
     build_counter := build_counter s |}.

(** Modelled from the spec: the package builders ([pkgbuild]) are not
    among the sources.  A builder is handed the working area, the
    PackageSource and the BuildRecord; it logs through the record's
    [logger], may set the record's version, records what it built on
    the source and leaves files in the working area. *)
Definition builder_step (tmpdir : string) (a : BuilderAction) : M unit :=
  match a with
  | BLog msg => l <- logger ;; emit l msg
  | BSetVersion v => modify (set_br (set_version (Some v))) ;; save_br
  | BSetBuilt n v => modify (set_self (set_built n v)) ;; save_self
  | BWrite rel n => modify (set_fs (insert (OsPath.join tmpdir rel) n))
  end.

Definition run_builder (tmpdir builddir : string) : M unit :=
  b <- gets (fun w => choose_builder env (clock w) builddir) ;;
  modify tick ;;
  match b with
  | None => raise (BuilderError "no builder")
  | Some (script, ok) =>
      for_each script (builder_step tmpdir) ;;
      if ok then ret tt else raise (BuilderError "build failed")
  end.

(** *** PackageSource.build_real *)

Definition set_build_counter (c : Z) (s : PackageSource) : PackageSource :=
  {| git_url := git_url s; branch := branch s; series := series s;
     last_seen_revision := last_seen_revision s;
     last_built_version := last_built_version s;
     last_built_name := last_built_name s;
     build_counter := c |}.

(** The lines before the [try]: the counter, the record, the checkout. *)
Definition build_start : M (string * string) :=
  modify (set_self (fun s => set_build_counter (build_counter s + 1) s)) ;;
  save_self ;;
  modify (fun w => set_br (fun _ => new_BuildRecord (build_counter (self w))) w) ;;
  save_br ;;
  l <- logger ;;
  c <- checkout None l ;;
  modify (set_br (set_sha (Some c.2))) ;;
  save_br ;;
  ret (c.1.1, c.1.2).

Definition is_changes (s : string) : bool := Py.endswith s ".changes".

Definition publish_all (tmpdir : string) (changes_files : list string) : M unit :=
  for_each changes_files
    (fun changes_file =>
       Series_process_changes (OsPath.join tmpdir changes_file)).

(** The body of the [try]. *)
Definition build_body (tmpdir builddir : string) : M unit :=
  run_builder tmpdir builddir ;;
  names <- listdir tmpdir ;;
  let changes_files := List.filter is_changes names in
  publish_all tmpdir changes_files ;;
  Series_export.

Definition build_real : M unit :=
  d <- build_start ;;
  try_finally (build_body d.1 d.2) (rmtree d.1).

End Methods.

(** ** The rest of models.py

    The methods that compute addresses and source lists, the
    GithubRepository model, the access checks and [first_series]. *)

(** *** Repository.base_url, Series._source_list, BuildRecord.buildlog_url *)

Section Urls.
Variable BUILDSVC_REPOS_BASE_URL : string.

Definition base_url (r : Repository) : string :=
  BUILDSVC_REPOS_BASE_URL +:+ "/" +:+ username r +:+ "/" +:+ repo_name r.

Definition _source_list (r : Repository) (s : Series) (prefix : string)
    (force_trusted : bool) : string :=
  let option := if force_trusted then " [trusted=yes]" else "" in
  prefix +:+ option +:+ " " +:+ base_url r +:+ " " +:+ series_name s +:+ " main".

Definition binary_source_list (r : Repository) (s : Series) (force_trusted : bool) : string :=
  _source_list r s "deb" force_trusted.

Definition source_source_list (r : Repository) (s : Series) (force_trusted : bool) : string :=
  _source_list r s "deb-src" force_trusted.

Definition buildlog_url (env : Env) (r : Repository) (s : PackageSource) (b : BuildRecord) : string :=
  base_url r +:+ "/buildlogs/" +:+ logpath (urlparse_path env) s b.
End Urls.

(** *** GithubRepository *)

Module Github.
Record GithubRepository := {
  repo_owner : string;
  repo_name : string;
}.
Definition url (g : GithubRepository) : string :=
  "https://github.com/" +:+ repo_owner g +:+ "/" +:+ repo_name g.
End Github.

(** ** Users and the rights on a repository

    The rows that the access checks read: a user, the repository with
    its owner, and the two many-to-many tables, of users and their
    groups and of repositories and their [extra_admins] groups. *)

Record User := {
  user_id : nat;
  is_active : bool;
  is_superuser : bool;
}.

Record RepositoryRow := {
  repository_id : nat;
  repository_user : nat;                 (* user_id of the owner *)
  repository_fields : Repository;
}.

Record Database := {
  repositories : list RepositoryRow;
  repository_extra_admins : list (nat * nat);   (* repository_id, group_id *)
  user_groups : list (nat * nat);               (* user_id, group_id *)
}.

Section Access.

Variable db : Database.

(** [user.groups.all()] *)
Definition groups_all (user : User) : list nat :=
  snd <$> List.filter (fun ug => Nat.eqb ug.1 (user_id user)) (user_groups db).

(** [self.extra_admins.all()] *)
Definition extra_admins_all (r : RepositoryRow) : list nat :=
  snd <$> List.filter (fun rg => Nat.eqb rg.1 (repository_id r))
            (repository_extra_admins db).

(** [self.extra_admins.filter(user=user)]: the groups among
    [extra_admins] that have [user] as a member *)
Definition extra_admins_with (r : RepositoryRow) (user : User) : list nat :=
  List.filter
    (fun g => existsb (fun ug => Nat.eqb ug.1 (user_id user) && Nat.eqb ug.2 g)
                (user_groups db))
    (extra_admins_all r).

Definition user_can_modify (r : RepositoryRow) (user : User) : bool :=
  if negb (is_active user) then false
  else if Nat.eqb (user_id user) (repository_user r) || is_superuser user then true
  else if negb (Nat.eqb (length (extra_admins_with r user)) 0) then true
  else false.

(** The rows of [filter(user=user) | filter(extra_admins__in=groups)]:
    the two conditions are joined by OR over the repositories
    left-joined with their [extra_admins], so a repository comes once
    for every row of the join that meets one of the conditions. *)
Definition owned_or_administered (user : User) (r : RepositoryRow)
    : list RepositoryRow :=
  let joined :=
    match extra_admins_all r with
    | [] => [None]
    | gs => Some <$> gs
    end in
  let groups := groups_all user in
  (fun _ => r) <$>
    List.filter
      (fun g => Nat.eqb (repository_user r) (user_id user)
                || match g with
                   | Some g => existsb (Nat.eqb g) groups
                   | None => false
                   end)
      joined.

Definition lookup_by_user (user : User) : list RepositoryRow :=
  if negb (is_active user) then []
  else if is_superuser user then repositories db
  else flat_map (owned_or_administered user) (repositories db).

End Access.

(** *** Repository.first_series *)

Record SeriesRow := {
  series_id : nat;
  series_row_name : string;              (* name *)
  series_repository : nat;               (* repository_id *)
}.

Inductive orm_result :=
| Found (s : SeriesRow)
| MultipleObjectsReturned.

Definition next_id (table : list SeriesRow) : nat :=
  S (foldr Nat.max 0%nat (series_id <$> table)).

(** [Series.objects.get_or_create(defaults={'name': ...},
    repository=self)[0]]: the series of the repository when there is
    one, a new one of the default name when there is none; [get]
    refuses to choose among several. *)
Definition first_series (BUILDSVC_DEFAULT_SERIES_NAME : string)
    (r : RepositoryRow) (table : list SeriesRow) : orm_result * list SeriesRow :=
  match List.filter (fun s => Nat.eqb (series_repository s) (repository_id r)) table with
  | [] =>
      let s := {| series_id := next_id table;
                  series_row_name := BUILDSVC_DEFAULT_SERIES_NAME;
                  series_repository := repository_id r |} in
      (Found s, table ++ [s])
  | [s] => (Found s, table)
  | _ => (MultipleObjectsReturned, table)
  end.

(** * Specifications

    The vocabulary of the theorems: what a method establishes from a
    world ([wp]), what it keeps ([preserves]), and the paths, commands
    and states that the statements name. *)

(** ** Weakest preconditions

    [wp m Q E w]: run from [w], the method [m] returns a value and a world
    in [Q], or raises an exception and leaves a world in [E]. *)

Definition wp {A} (m : M A) (Q : A -> World -> Prop) (E : exn -> World -> Prop)
    (w : World) : Prop :=
  match m w with
  | (Return a, w') => Q a w'
  | (Raise e, w') => E e w'
  end.


(** ** Paths and commands of a repository *)

Definition basedir_path (env : Env) (r : Repository) : string :=
  OsPath.join3 (BUILDSVC_REPOS_BASE_DIR env) (username r) (repo_name r).
Definition outdir_path (env : Env) (r : Repository) : string :=
  OsPath.join3 (BUILDSVC_REPOS_BASE_PUBLIC_DIR env) (username r) (repo_name r).
Definition keypath (env : Env) (r : Repository) : string :=
  OsPath.join (outdir_path env r) "repo.key".

(** [m'] is [m] with the directory [d], if [m] did not have it *)
Definition adds_dir (d : string) (m m' : gmap string Node) : Prop :=
  m ⊆ m' /\ m' !! d = Some Dir /\ forall p, p <> d -> m' !! p = m !! p.

Definition reprepro_cmd (env : Env) (r : Repository) (args : list string) : list string :=
  ["reprepro"; "-b"; basedir_path env r] ++ args.

(** ** poll *)

(** the query of [poll] and the hash it takes from the answer *)
Definition ls_remote (s : PackageSource) : list string :=
  ["git"; "ls-remote"; git_url s; "refs/heads/" +:+ branch s].

Definition remote_hash (out : string) : string := Py.first (Py.split "009" out).

(** ** logpath *)

Fixpoint slashless (s : string) : Prop :=
  match s with
  | EmptyString => True
  | String c r => c <> "/"%char /\ slashless r
  end.

(** the file name of the log of [b], for a source of long name [ln] *)
Definition logfile (ln : string) (b : BuildRecord) : string :=
  if Py.truthy (version b) then ln +:+ "_" +:+ Py.str (version b) +:+ ".log"
  else ln +:+ "_" +:+ Py.str_of_int (br_build_counter b) +:+ ".tmp.log".

(** a source whose URL has no path *)
Definition rootless_source : PackageSource :=
  {| git_url := "https://example.com/"; branch := "master";
     series := {| series_name := "aasemble" |};
     last_seen_revision := None; last_built_version := None;
     last_built_name := None; build_counter := 1 |}.

(** ** build_real *)







(** ** export and process_changes *)

Definition export_cmd (env : Env) (r : Repository) : Event :=
  ECmd (reprepro_cmd env r ["export"]).

(** what a successful [export] leaves *)
Definition exported (env : Env) (w w' : World) : Prop :=
  self w' = self w /\ pool w' = pool w /\ index w' = pool w /\
  fs w ⊆ fs w' /\
  exists evs, trace w' = (trace w ++ evs) ++ [export_cmd env (repository w)].

(** what a failed [export] leaves *)
Definition not_exported (w w' : World) : Prop :=
  self w' = self w /\ pool w' = pool w /\ index w' = index w /\
  fs w ⊆ fs w' /\
  exists evs, trace w' = trace w ++ evs.

Definition upload_of (s f : string) (c : Deb822.Changes) : Upload :=
  {| distribution := s; changes_file := f; manifest := c |}.

Definition include_cmd (env : Env) (r : Repository) (s f : string) : Event :=
  ECmd (reprepro_cmd env r ["--ignore=wrongdistribution"; "include"; s; f]).

(** what [process_changes] does up to the include command *)
Definition include_events (env : Env) (r : Repository) (s f : string) : list Event :=
  [ERender (basedir_path env r); EWrite f; include_cmd env r s f].

(** what a successful [process_changes] leaves *)
Definition published (env : Env) (s f : string) (w w' : World) : Prop :=
  exists c,
    fs w !! f = Some (Manifest c) /\
    fs w' !! f = Some (Manifest (strip_ddebs c)) /\
    pool w' = pool w ++ [upload_of s f (strip_ddebs c)] /\
    index w' = pool w' /\
    self w' = self w /\
    exists evs,
      trace w' =
        (trace w ++ include_events env (repository w) s f ++ evs)
        ++ [export_cmd env (repository w)].

(** a [process_changes] that failed before it rewrote the manifest: the
    working directory could not be made, or the manifest not be read *)
Definition stopped_early (env : Env) (f : string) (w w' : World) : Prop :=
  pool w' = pool w /\
  (trace w' = trace w \/
   trace w' = trace w ++ [ERender (basedir_path env (repository w))] /\
   forall c, fs w !! f <> Some (Manifest c)).

(** a [process_changes] that failed after it rewrote the manifest: in
    the include command, or in the export that follows it *)
Definition stopped_late (env : Env) (s f : string) (w w' : World) : Prop :=
  exists c,
    fs w !! f = Some (Manifest c) /\
    fs w' !! f = Some (Manifest (strip_ddebs c)) /\
    (pool w' = pool w \/ pool w' = pool w ++ [upload_of s f (strip_ddebs c)]) /\
    exists evs, trace w' = trace w ++ include_events env (repository w) s f ++ evs.

(** what a failed [process_changes] leaves *)
Definition not_published (env : Env) (s f : string) (w w' : World) : Prop :=
  self w' = self w /\ index w' = index w /\
  (stopped_early env f w w' \/ stopped_late env s f w w').

(** ** The log of a build *)

(** the path that [buildlog] computes, and the name of the logger *)
Definition buildlog_path (env : Env) (r : Repository) (s : PackageSource)
    (b : BuildRecord) : string :=
  OsPath.join (OsPath.join (outdir_path env r) "buildlogs")
              (logpath (urlparse_path env) s b).

Definition logger_name_of (s : PackageSource) (b : BuildRecord) : string :=
  "buildsvc.pkgbuild." +:+ name s +:+ "_" +:+ Py.str_of_int (br_build_counter b).

(** the lines that the formatter makes of [msgs], the first at instant [c] *)
Fixpoint stamp (env : Env) (c : nat) (msgs : list string) : list string :=
  match msgs with
  | [] => []
  | m :: r => (asctime env c +:+ ": " +:+ m) :: stamp env (S c) r
  end.

(** [m'] is [m] with some directories more *)
Definition adds_dirs (m m' : gmap string Node) : Prop :=
  m ⊆ m' /\ forall q, m' !! q = m !! q \/ m' !! q = Some Dir.

(** the record logs through logger [n], whose one handler writes the
    file [p], which holds the lines [L] *)
Definition logging_at (n p : string) (L : list string) (w : World) : Prop :=
  _logger (br w) = Some n /\ _saved_logpath (br w) = Some p /\
  loggers w !! n = Some [p] /\ fs w !! p = Some (Log L).

(** [w'] is the same build as [w] *)
Definition same_build (w w' : World) : Prop :=
  self w' = self w /\ repository w' = repository w /\ clock w' = clock w /\
  version (br w') = version (br w) /\
  br_build_counter (br w') = br_build_counter (br w).

(** A build that logs [msgs1], learns its version, and logs [msgs2]. *)
Definition logged_build (env : Env) (msgs1 : list string) (v : string)
    (msgs2 : list string) : M unit :=
  lg <- logger env ;;
  for_each msgs1 (emit env lg) ;;
  modify (set_br (set_version (Some v))) ;;
  lg' <- logger env ;;
  for_each msgs2 (emit env lg').

(** ** Publishing and the key *)



(** ** A repository, a source and an outside to run the methods on *)

Definition demo_source : PackageSource :=
  {| git_url := "https://github.com/foo/bar_baz"; branch := "main";
     series := {| series_name := "aasemble" |};
     last_seen_revision := None; last_built_version := None;
     last_built_name := None; build_counter := 0 |}.

Definition demo_repository : Repository :=
  {| username := "alice"; repo_name := "repo"; key_id := Some "" |}.

Definition succeeds (out : string) : Outcome :=
  {| returncode := 0; stdout := out; logged := ["done"]; created := [] |}.

Definition fails : Outcome :=
  {| returncode := 1; stdout := ""; logged := ["failed"]; created := [] |}.

Definition deb (n : string) : Deb822.FileEntry :=
  {| Deb822.name := n; Deb822.columns := [("size", "1024")] |}.

(** The manifest of the spec's scenario: it lists [foo.ddeb] and
    [foo.deb]. *)
Definition foo_manifest : Deb822.Changes :=
  {| Deb822.fields := {[ "Source" := "foo" ]};
     Deb822.sections :=
       list_to_map [("Checksums-Sha1", [deb "foo.ddeb"; deb "foo.deb"]);
                    ("Checksums-Sha256", [deb "foo.ddeb"; deb "foo.deb"]);
                    ("Files", [deb "foo.ddeb"; deb "foo.deb"])] |}.

Definition bar_manifest : Deb822.Changes :=
  {| Deb822.fields := {[ "Source" := "bar" ]};
     Deb822.sections := {[ "Files" := [deb "bar.deb"] ]} |}.

(** The remote is at [abc123]; the builder leaves three manifests, and
    the repository tool refuses [a.changes]. *)
Definition demo_env : Env :=
  {| BUILDSVC_REPOS_BASE_DIR := "/srv/repos";
     BUILDSVC_REPOS_BASE_PUBLIC_DIR := "/srv/www";
     BUILDSVC_REPODRIVER := FakeDriver;
     urlparse_path := simple_url_path;
     asctime := fun n => "t" +:+ Py.str_of_int (Z.of_nat n);
     mkdtemp_name := fun n => "/tmp/tmp" +:+ Py.str_of_int (Z.of_nat n);
     subprocess := fun _ argv =>
       match argv with
       | "git" :: "ls-remote" :: _ =>
           succeeds ("abc123" +:+ String "009" "refs/heads/main")
       | "git" :: "clone" :: _ =>
           {| returncode := 0; stdout := ""; logged := ["Cloning into build"];
              created := [("build/debian/control", Raw "Source: foo")] |}
       | ["reprepro"; _; _; _; "include"; _; f] =>
           if String.eqb f "/tmp/tmp0/a.changes" then fails else succeeds ""
       | _ => succeeds ("deadbeef" +:+ String "010" "")
       end;
     choose_builder := fun _ _ =>
       Some ([BLog "building"; BSetVersion "1.0";
              BWrite "a.changes" (Manifest foo_manifest);
              BWrite "b.changes" (Manifest bar_manifest);
              BWrite "c.changes" (Manifest bar_manifest);
              BLog "built"], true) |}.

(** An outside where every command succeeds and prints nothing. *)
Definition quiet_env : Env :=
  {| BUILDSVC_REPOS_BASE_DIR := "/srv/repos";
     BUILDSVC_REPOS_BASE_PUBLIC_DIR := "/srv/www";
     BUILDSVC_REPODRIVER := RepreproDriver;
     urlparse_path := simple_url_path;
     asctime := fun _ => "now";
     mkdtemp_name := fun _ => "/tmp/tmp";
     subprocess := fun _ _ => succeeds "";
     choose_builder := fun _ _ => None |}.

Definition demo_world : World :=
  {| clock := 0; self := demo_source; self_row := demo_source;
     repository := demo_repository; repository_row := demo_repository;
     br := new_BuildRecord 1; br_rows := [];
     fs := ∅; loggers := ∅; pool := []; index := []; trace := [] |}.

Definition foo_changes : string := "/srv/incoming/foo_1.0_amd64.changes".

(** The world with the manifest of the scenario uploaded. *)
Definition upload_world : World :=
  set_fs (insert foo_changes (Manifest foo_manifest)) demo_world.


Definition demo_included : World :=
  (process_changes demo_env "aasemble" foo_changes upload_world).2.


Definition demo_logged : World :=
  (logged_build demo_env ["one"; "two"] "1.0" ["three"] demo_world).2.

(** ** Further vocabulary *)

(** the character [c] does not occur in [s] *)
Fixpoint lacks (c : ascii) (s : string) : Prop :=
  match s with
  | EmptyString => True
  | String a r => a <> c /\ lacks c r
  end.

(** a component of a path: not empty, no slash *)
Definition component (c : string) : Prop := c <> "" /\ lacks "/" c.

(** the elements at the positions 1, 3, 5, ... of a list *)
Fixpoint odd_positions {A} (l : list A) : list A :=
  match l with
  | _ :: y :: r => y :: odd_positions r
  | _ => []
  end.

(** the command of [RepreproDriver.generate_key] *)
Definition gen_key_cmd : list string := ["gpg"; "--batch"; "--gen-key"].

(** the commands of [checkout] *)
Definition clone_cmd (s : PackageSource) : list string :=
  ["git"; "clone"; git_url s; "-b"; branch s; "build"].
Definition reset_cmd (sha : option string) : list string :=
  ["git"; "reset"; "--hard"; Py.str sha].
Definition rev_parse_cmd : list string := ["git"; "rev-parse"; "HEAD"].

(** the events of a trace and the source are [evs] and [s] *)
Definition traced (evs : list Event) (s : PackageSource) (w : World) : Prop :=
  trace w = evs /\ self w = s.


(** An outside where every command fails. *)
Definition failing_env : Env :=
  {| BUILDSVC_REPOS_BASE_DIR := "/srv/repos";
     BUILDSVC_REPOS_BASE_PUBLIC_DIR := "/srv/www";
     BUILDSVC_REPODRIVER := RepreproDriver;
     urlparse_path := simple_url_path;
     asctime := fun _ => "now";
     mkdtemp_name := fun _ => "/tmp/tmp";
     subprocess := fun _ _ => fails;
     choose_builder := fun _ _ => None |}.

(** What gpg prints when it has made a key. *)
Definition gpg_output : string :=
  "gpg: keyring `/srv/repos/alice/repo/.gnupg/secring.gpg' created"
  +:+ String "010"
      ("gpg: key ABCD1234 marked as ultimately trusted" +:+ String "010" "").

Definition gpg_env : Env :=
  {| BUILDSVC_REPOS_BASE_DIR := "/srv/repos";
     BUILDSVC_REPOS_BASE_PUBLIC_DIR := "/srv/www";
     BUILDSVC_REPODRIVER := RepreproDriver;
     urlparse_path := simple_url_path;
     asctime := fun _ => "now";
     mkdtemp_name := fun _ => "/tmp/tmp";
     subprocess := fun _ _ => succeeds gpg_output;
     choose_builder := fun _ _ => None |}.

(** Two sources whose paths differ in a slash and an underscore. *)
Definition with_git_url (u : string) (s : PackageSource) : PackageSource :=
  {| git_url := u; branch := branch s; series := series s;
     last_seen_revision := last_seen_revision s;
     last_built_version := last_built_version s;
     last_built_name := last_built_name s;
     build_counter := build_counter s |}.

Definition slash_source : PackageSource :=
  with_git_url "https://github.com/foo/bar" demo_source.
Definition underscore_source : PackageSource :=
  with_git_url "https://github.com/foo_bar" demo_source.

(** A repository whose name is an absolute path. *)
Definition absolute_repository : Repository :=
  {| username := "alice"; repo_name := "/etc"; key_id := None |}.

(** [demo_world] after the first access of the logger, and with two
    handlers left on the logger of the build by earlier use. *)
Definition demo_logging : World := (logger demo_env demo_world).2.

Definition stale_world : World :=
  set_loggers (insert (logger_name_of demo_source (new_BuildRecord 1))
                 ["/old/a.log"; "/old/b.log"]) demo_world.

(** * Proofs *)

(** ** Rules of the combinators *)

Section WP.
Context {A B : Type}.
Implicit Types (Q : A -> World -> Prop) (E : exn -> World -> Prop) (w : World).

Lemma wp_ret (a : A) Q E w : Q a w -> wp (ret a) Q E w.
Proof. exact id. Qed.

Lemma wp_raise e Q E w : E e w -> wp (raise e) Q E w.
Proof. exact id. Qed.

Lemma wp_gets (f : World -> A) Q E w : Q (f w) w -> wp (gets f) Q E w.
Proof. exact id. Qed.

Lemma wp_bind (m : M B) (k : B -> M A) Q E w :
  wp m (fun b => wp (k b) Q E) E w -> wp (bind m k) Q E w.
Proof. unfold wp, bind. destruct (m w) as [[b|e] w']; exact id. Qed.

Lemma wp_mono (m : M A) Q Q' E E' w :
  (forall a w', Q a w' -> Q' a w') -> (forall e w', E e w' -> E' e w') ->
  wp m Q E w -> wp m Q' E' w.
Proof. unfold wp. intros HQ HE. destruct (m w) as [[a|e] w']; auto. Qed.

Lemma wp_try_except (body : M A) (handler : exn -> M A) Q E w :
  wp body Q (fun e => wp (handler e) Q E) w -> wp (try_except body handler) Q E w.
Proof. unfold wp, try_except. destruct (body w) as [[a|e] w']; exact id. Qed.

Lemma wp_try_finally (body : M A) (final : M unit) Q E w :
  wp body (fun a => wp final (fun _ => Q a) E)
          (fun e => wp final (fun _ => E e) E) w ->
  wp (try_finally body final) Q E w.
Proof.
  unfold wp, try_finally. destruct (body w) as [[a|e] w'];
    destruct (final w') as [[[]|e'] w'']; exact id.
Qed.

Lemma wp_result (m : M A) Q E w r w' :
  wp m Q E w -> m w = (r, w') ->
  match r with Return a => Q a w' | Raise e => E e w' end.
Proof. unfold wp. intros H Hm. rewrite Hm in H. destruct r; exact H. Qed.

End WP.

Lemma wp_modify (f : World -> World) Q E w : Q tt (f w) -> wp (modify f) Q E w.
Proof. exact id. Qed.

Lemma wp_when (b : bool) (m : M unit) Q E w :
  (b = true -> wp m Q E w) -> (b = false -> Q tt w) -> wp (when b m) Q E w.
Proof. destruct b; intros H1 H2; [apply H1 | apply H2]; reflexivity. Qed.

Lemma wp_for_each {A} (I : World -> Prop) (l : list A) (body : A -> M unit) E w :
  (forall x w', In x l -> I w' -> wp (body x) (fun _ => I) E w') ->
  I w -> wp (for_each l body) (fun _ => I) E w.
Proof.
  revert w. induction l as [|x l IH]; intros w Hb Hw; [exact Hw|].
  cbn [for_each]. apply wp_bind.
  eapply wp_mono; [| |apply Hb; [left; reflexivity|exact Hw]]; cbn beta.
  - intros _ w' Hw'. apply IH; [|exact Hw']. intros y w'' Hy. apply Hb. right; exact Hy.
  - auto.
Qed.

(** Projections of a changed world. *)
Ltac simpl_world :=
  cbn [clock self self_row repository repository_row br br_rows fs loggers
       pool index trace set_clock set_self set_self_row set_repository
       set_repository_row set_br set_br_rows set_fs set_loggers set_pool
       set_index record tick fst snd] in *.

Ltac head_of t := lazymatch t with ?f _ => head_of f | _ => t end.

(* one step through a combinator *)
Ltac wp_prim :=
  cbv beta;
  lazymatch goal with
  | |- wp (bind _ _) _ _ _ => apply wp_bind
  | |- wp (ret _) _ _ _ => apply wp_ret
  | |- wp (raise _) _ _ _ => apply wp_raise
  | |- wp (gets _) _ _ _ => apply wp_gets
  | |- wp (modify _) _ _ _ => apply wp_modify
  | |- wp (when _ _) _ _ _ => apply wp_when; intros ?
  | |- wp (try_except _ _) _ _ _ => apply wp_try_except
  | |- wp (try_finally _ _) _ _ _ => apply wp_try_finally
  | |- wp (match ?x with _ => _ end) _ _ _ => destruct x eqn:?
  | |- wp (exists_ _) _ _ _ => unfold exists_
  | |- wp (isdir _) _ _ _ => unfold isdir
  | |- wp (makedirs _) _ _ _ => unfold makedirs
  | |- wp (write_file _ _) _ _ _ => unfold write_file
  | |- wp (rename _ _) _ _ _ => unfold rename
  | |- wp (rmtree _) _ _ _ => unfold rmtree
  | |- wp (listdir _) _ _ _ => unfold listdir
  | |- wp (open_append _) _ _ _ => unfold open_append
  | |- wp save_self _ _ _ => unfold save_self
  | |- wp save_repository _ _ _ => unfold save_repository
  | |- wp save_br _ _ _ => unfold save_br
  | |- wp (recursive_render _ _) _ _ _ => unfold recursive_render
  | |- wp (outdir _) _ _ _ => unfold outdir
  | |- wp logger_name _ _ _ => unfold logger_name
  | |- wp (BuildRecord_logpath _) _ _ _ => unfold BuildRecord_logpath
  | |- wp (mkdtemp _) _ _ _ => unfold mkdtemp
  end; simpl_world.

(* open the method at the head *)
Ltac wp_open :=
  cbv beta;
  lazymatch goal with
  | |- wp ?m _ _ _ => let h := head_of m in unfold h
  end.

Ltac wp_step := first [wp_prim | wp_open].

(** *** Invariants *)

Section Preserves.
Context (P : World -> Prop).










End Preserves.



(** ** Commands, directories and the repository tool *)

Lemma for_each_emit_None env l w : for_each l (emit env None) w = (Return tt, w).
Proof. induction l as [|x l IH]; [reflexivity|]. cbn. unfold bind. cbn. exact IH. Qed.

Lemma run_cmd_plain env cmd w :
  run_cmd env cmd None None w =
    (if returncode (subprocess env (clock w) cmd) =? 0
     then Return (stdout (subprocess env (clock w) cmd))
     else Raise (CalledProcessError cmd),
     record (ECmd cmd) (tick w)).
Proof.
  unfold run_cmd, bind, gets, modify, ret. cbn.
  rewrite for_each_emit_None.
  destruct (_ =? 0); reflexivity.
Qed.

Lemma wp_run_cmd_plain env cmd Q E w :
  let o := subprocess env (clock w) cmd in
  let w' := record (ECmd cmd) (tick w) in
  (returncode o = 0 -> Q (stdout o) w') ->
  (returncode o <> 0 -> E (CalledProcessError cmd) w') ->
  wp (run_cmd env cmd None None) Q E w.
Proof.
  intros o w' HQ HE. unfold wp. rewrite run_cmd_plain. fold o w'.
  destruct (Z.eqb_spec (returncode o) 0); auto.
Qed.

Ltac wp_cmd := apply wp_run_cmd_plain; cbv zeta; intros ?; simpl_world.

Lemma set_fs_id w : set_fs (fun _ => fs w) w = w.
Proof. destruct w; reflexivity. Qed.

Lemma adds_dir_trans d m1 m2 m3 :
  adds_dir d m1 m2 -> adds_dir d m2 m3 -> adds_dir d m1 m3.
Proof.
  intros (S1 & D1 & O1) (S2 & D2 & O2). split_and!; [by etrans|done|].
  intros p Hp. rewrite O2, O1; auto.
Qed.

Lemma adds_dir_lookup d m m' p n :
  adds_dir d m m' -> m !! p = Some n -> m' !! p = Some n.
Proof. intros (S1 & _) Hp. eapply lookup_weaken; eassumption. Qed.

Lemma wp_ensure_dir d Q E w :
  (forall m, adds_dir d (fs w) m -> Q d (set_fs (fun _ => m) w)) ->
  (forall n, fs w !! d = Some n -> n <> Dir -> E (OSError d) w) ->
  wp (ensure_dir d) Q E w.
Proof.
  intros HQ HE. unfold ensure_dir, isdir, makedirs, exists_.
  destruct (fs w !! d) as [n|] eqn:Hd.
  - assert (Hn : n = Dir \/ n <> Dir) by (destruct n; auto; right; discriminate).
    destruct Hn as [->|Hn].
    + repeat wp_step; rewrite Hd in *; try discriminate.
      rewrite <- (set_fs_id w). apply HQ. split_and!; auto.
    + repeat wp_step; rewrite Hd in *; try discriminate.
      * eapply HE; eauto.
      * destruct n; try discriminate; congruence.
  - repeat wp_step; rewrite Hd in *; try discriminate.
    apply (HQ (<[d:=Dir]> (fs w))). split_and!;
      [by apply insert_subseteq | apply lookup_insert_eq |].
    intros p Hp. by apply lookup_insert_ne.
Qed.

Lemma wp_basedir env Q E w :
  let b := basedir_path env (repository w) in
  (forall m, adds_dir b (fs w) m -> Q b (set_fs (fun _ => m) w)) ->
  (forall n, fs w !! b = Some n -> n <> Dir -> E (OSError b) w) ->
  wp (basedir env) Q E w.
Proof.
  intros b HQ HE. unfold basedir. wp_prim. wp_prim.
  apply wp_ensure_dir; assumption.
Qed.

Lemma wp_ensure_directory_structure env Q E w :
  let b := basedir_path env (repository w) in
  (forall m, adds_dir b (fs w) m ->
     Q tt (record (ERender b) (set_fs (fun _ => m) w))) ->
  (forall n, fs w !! b = Some n -> n <> Dir -> E (OSError b) w) ->
  wp (ensure_directory_structure env) Q E w.
Proof.
  intros b HQ HE. unfold ensure_directory_structure, recursive_render. wp_prim.
  apply wp_basedir; [|exact HE]. intros m Hm. repeat wp_prim. by apply HQ.
Qed.

Lemma wp__reprepro env args Q E w :
  let b := basedir_path env (repository w) in
  let cmd := reprepro_cmd env (repository w) args in
  let o := subprocess env (clock w) cmd in
  (forall m, adds_dir b (fs w) m -> returncode o = 0 ->
     wp (reprepro_effect args) (fun _ => Q (stdout o)) E
        (record (ECmd cmd) (tick (set_fs (fun _ => m) w)))) ->
  (forall m, adds_dir b (fs w) m -> returncode o <> 0 ->
     E (CalledProcessError cmd) (record (ECmd cmd) (tick (set_fs (fun _ => m) w)))) ->
  (forall n, fs w !! b = Some n -> n <> Dir -> E (OSError b) w) ->
  wp (_reprepro env args) Q E w.
Proof.
  intros b cmd o HQ HC HE. unfold _reprepro, gpghome.
  wp_prim. wp_prim. apply wp_basedir; [|exact HE].
  intros m Hm. fold b. repeat wp_prim.
  apply wp_basedir; simpl_world; fold b.
  2:{ intros n Hn Hne. destruct Hm as (_ & Hb & _). unfold b in *. congruence. }
  intros m' Hm'. wp_prim.
  assert (Hmm : adds_dir b (fs w) m') by (eapply adds_dir_trans; eassumption).
  apply wp_run_cmd_plain; cbv zeta; simpl_world; fold cmd o; intros Hrc.
  - wp_prim. exact (HQ m' Hmm Hrc).
  - exact (HC m' Hmm Hrc).
Qed.


(** ** PackageSource.poll *)

Lemma poll_run env w :
  returncode (subprocess env (clock w) (ls_remote (self w))) = 0 ->
  poll env w =
    let sha := remote_hash (stdout (subprocess env (clock w) (ls_remote (self w)))) in
    let w1 := record (ECmd (ls_remote (self w))) (tick w) in
    if bool_decide (Some sha = last_seen_revision (self w)) then (Return false, w1)
    else (Return true,
          set_self_row (fun _ => set_last_seen_revision (Some sha) (self w))
            (set_self (set_last_seen_revision (Some sha)) w1)).
Proof.
  intros H. unfold poll. unfold bind at 1. cbn [gets].
  unfold bind at 1. rewrite run_cmd_plain. fold (ls_remote (self w)). rewrite H. cbn [Z.eqb].
  unfold bind, gets. cbn -[Py.split bool_decide].
  fold (remote_hash (stdout (subprocess env (clock w) (ls_remote (self w))))).
  destruct (bool_decide _); reflexivity.
Qed.

Arguments poll : simpl never.
Arguments remote_hash : simpl never.
Arguments ls_remote : simpl never.

(** C1: when the remote query of a poll succeeds, [poll] answers [True]
    exactly when the hash it extracts differs from [last_seen_revision],
    and exactly then [last_seen_revision] changes: the new hash is set on
    the instance and saved.  When the hash is the one last seen, [poll]
    answers [False] and neither the instance nor any row of the database
    changes.  A second poll that sees the same hash answers [False] and
    leaves the instance and its row as the first poll left them. *)
Theorem poll_changed_iff env w :
  let out := subprocess env (clock w) (ls_remote (self w)) in
  let sha := remote_hash (stdout out) in
  returncode out = 0 ->
  exists changed w',
    poll env w = (Return changed, w') /\
    (changed = true <-> Some sha <> last_seen_revision (self w)) /\
    (changed = true <-> last_seen_revision (self w') <> last_seen_revision (self w)) /\
    (changed = true ->
       last_seen_revision (self w') = Some sha /\ self_row w' = self w') /\
    (changed = false ->
       self w' = self w /\ self_row w' = self_row w /\
       repository_row w' = repository_row w /\ br_rows w' = br_rows w) /\
    (forall out2,
       subprocess env (clock w') (ls_remote (self w')) = out2 ->
       returncode out2 = 0 -> remote_hash (stdout out2) = sha ->
       exists w'', poll env w' = (Return false, w'') /\
                   self w'' = self w' /\ self_row w'' = self_row w').
Proof.
  intros out sha Hok.
  pose proof (poll_run env w Hok) as E. cbn zeta in E. fold out sha in E.
  destruct (bool_decide_reflect (Some sha = last_seen_revision (self w))) as [Heq|Hne].
  - eexists false, _. split; [exact E|]. cbn.
    split_and!; try (clear E; intuition congruence).
    intros out2 <- Hok2 Hsha.
    match goal with |- context [poll env ?w1] =>
      pose proof (poll_run env w1 Hok2) as E2 end. cbn zeta in E2.
    cbn in E2. rewrite Hsha in E2.
    rewrite bool_decide_true in E2 by exact Heq.
    eexists; split; [exact E2|]. split; reflexivity.
  - eexists true, _. split; [exact E|]. cbn.
    split_and!; try (clear E; intuition congruence).
    intros out2 <- Hok2 Hsha.
    match goal with |- context [poll env ?w1] =>
      pose proof (poll_run env w1 Hok2) as E2 end. cbn zeta in E2.
    cbn in E2. rewrite Hsha in E2.
    rewrite bool_decide_true in E2 by reflexivity.
    eexists; split; [exact E2|]. split; reflexivity.
Qed.

(** C1, at [demo_world]: nothing seen yet, the remote at [abc123]. *)
Lemma poll_changed_iff_witness :
  exists changed w',
    poll demo_env demo_world = (Return changed, w') /\
    (changed = true <-> Some "abc123" <> last_seen_revision (self demo_world)) /\
    last_seen_revision (self w') = Some "abc123".
Proof.
  destruct (poll_changed_iff demo_env demo_world eq_refl)
    as (changed & w' & Hrun & Hiff & _ & Hset & _).
  exists changed, w'. split_and!; [exact Hrun|exact Hiff|].
  apply Hset, Hiff. discriminate.
Defined.

(** C9: when the remote query succeeds with empty output, the hash that
    [poll] extracts is the empty string; unless [last_seen_revision] is
    the empty string already, [poll] saves the empty string as
    [last_seen_revision] and answers [True]: it does not raise. *)
Theorem poll_empty_output env w :
  let out := subprocess env (clock w) (ls_remote (self w)) in
  returncode out = 0 ->
  stdout out = "" ->
  last_seen_revision (self w) <> Some "" ->
  exists w',
    poll env w = (Return true, w') /\
    last_seen_revision (self w') = Some "" /\
    last_seen_revision (self_row w') = Some "".
Proof.
  intros out Hok Hout Hne.
  pose proof (poll_run env w Hok) as E. cbn zeta in E. fold out in E.
  rewrite Hout in E. change (remote_hash "") with "" in E.
  rewrite bool_decide_false in E by congruence.
  eexists; split; [exact E|]. split; reflexivity.
Qed.

(** C9, at [demo_world] with an outside that prints nothing. *)
Lemma poll_empty_output_witness :
  exists w',
    poll quiet_env demo_world = (Return true, w') /\
    last_seen_revision (self w') = Some "" /\
    last_seen_revision (self_row w') = Some "".
Proof.
  apply (poll_empty_output quiet_env demo_world); [reflexivity|reflexivity|discriminate].
Defined.

(** ** BuildRecord.logpath *)

Lemma split_cons sep a r :
  Py.split sep (String a r) =
    if Ascii.eqb a sep then EmptyString :: Py.split sep r
    else match Py.split sep r with h :: t => String a h :: t | [] => [String a EmptyString] end.
Proof. reflexivity. Qed.

Lemma split_slashless s : Forall slashless (Py.split "/" s).
Proof.
  induction s as [|a r IH].
  - repeat constructor.
  - rewrite split_cons. destruct (Ascii.eqb_spec a "/") as [->|Hne].
    + constructor; [exact I | exact IH].
    + destruct (Py.split "/" r) as [|h t].
      * repeat constructor. exact Hne.
      * inversion IH; subst. constructor; [|assumption].
        split; assumption.
Qed.

Lemma slashless_app a b : slashless a -> slashless b -> slashless (a +:+ b).
Proof. induction a as [|c r IH]; cbn; [auto|]. intros [? ?] ?; split; auto. Qed.

Lemma join_slashless l : Forall slashless l -> slashless (Py.join "_" l).
Proof.
  unfold Py.join. induction 1 as [|x l Hx Hl IH]; [exact I|].
  destruct l as [|y l]; [exact Hx|].
  change (slashless (x +:+ "_" +:+ String.concat "_" (y :: l))).
  apply slashless_app; [exact Hx|]. split; [discriminate | exact IH].
Qed.

Lemma long_name_slashless up s : slashless (long_name up s).
Proof.
  unfold long_name, Py.nonempty. apply join_slashless.
  rewrite Forall_forall. intros x Hx. apply list_elem_of_In, filter_In in Hx as [Hx _].
  pose proof (split_slashless (up (git_url s))) as H.
  rewrite Forall_forall in H. apply H. apply list_elem_of_In. exact Hx.
Qed.

Lemma slashless_not_startswith s t : slashless s -> s <> "" -> Py.startswith (s +:+ t) "/" = false.
Proof.
  destruct s as [|c r]; [congruence|]. intros [Hc _] _.
  unfold Py.startswith. change (String c r +:+ t) with (String c (r +:+ t)).
  cbn [String.prefix]. destruct (ascii_dec _ _) as [E|E]; [congruence|reflexivity].
Qed.

Lemma slashless_not_endswith s : slashless s -> Py.endswith s "/" = false.
Proof.
  induction s as [|c r IH]; [reflexivity|]. intros [Hc Hr].
  cbn [Py.endswith]. rewrite (IH Hr), orb_false_r.
  apply String.eqb_neq. intros E. injection E as E _. congruence.
Qed.

Lemma join_long_name ln t :
  slashless ln ->
  OsPath.join ln (ln +:+ "_" +:+ t) =
    if String.eqb ln "" then "_" +:+ t else ln +:+ "/" +:+ ln +:+ "_" +:+ t.
Proof.
  intros H. unfold OsPath.join.
  destruct (String.eqb_spec ln "") as [->|Hne]; [reflexivity|].
  rewrite (slashless_not_startswith ln _ H Hne).
  rewrite (slashless_not_endswith ln H). reflexivity.
Qed.

(** C8, amended: the log path is [<long_name>/<file>], where [<file>] is
    [<long_name>_<version>.log] when the version is known and
    [<long_name>_<build_counter>.tmp.log] when it is not; when
    [long_name] is empty, [os.path.join] adds no slash and the path is
    [<file>] alone. *)
Theorem logpath_shape up s b :
  let ln := long_name up s in
  logpath up s b =
    if String.eqb ln "" then logfile ln b else ln +:+ "/" +:+ logfile ln b.
Proof.
  intros ln. unfold logpath, logfile. fold ln.
  pose proof (long_name_slashless up s) as H. fold ln in H.
  destruct (Py.truthy (version b)); rewrite (join_long_name ln _ H);
    destruct (String.eqb_spec ln "") as [->|]; reflexivity.
Qed.

(** C8 as the claim has it fails for a source whose URL has no path:
    [long_name] is empty and the log path is [_1.0.log], not
    [/_1.0.log]. *)
Lemma logpath_rootless_counterexample :
  let s := rootless_source in
  let b := set_version (Some "1.0") (new_BuildRecord 1) in
  let ln := long_name simple_url_path s in
  Py.truthy (version b) = true /\
  logpath simple_url_path s b <> ln +:+ "/" +:+ ln +:+ "_" +:+ "1.0" +:+ ".log".
Proof. split; [reflexivity|]. vm_compute. discriminate. Qed.

(** ** The build counter *)




(** ** The temporary working area *)









(** ** export and process_changes *)

Ltac wp_go :=
  first
    [ wp_prim
    | apply wp_ensure_directory_structure; simpl_world; [intros ? ?|intros ? ? ?]
    | apply wp__reprepro; cbv zeta; simpl_world; [intros ? ? ?|intros ? ? ?|intros ? ? ?]
    | wp_cmd
    | progress unfold export, ensure_key, export_key, generate_key, get_repo_driver,
        reprepro_effect, process_changes, remove_ddebs_from_changes,
        Series_process_changes, Series_export ].

Lemma basedir_path_set_key_id env k r :
  basedir_path env (set_key_id k r) = basedir_path env r.
Proof. reflexivity. Qed.

Lemma reprepro_cmd_set_key_id env k r args :
  reprepro_cmd env (set_key_id k r) args = reprepro_cmd env r args.
Proof. reflexivity. Qed.

Lemma insert_new_subseteq (m : gmap string Node) p n :
  match m !! p with Some _ => true | None => false end = false -> m ⊆ <[p:=n]> m.
Proof. intros H. apply insert_subseteq. destruct (m !! p); [discriminate|reflexivity]. Qed.

Ltac trace_ext :=
  eexists; f_equal; rewrite <- ?app_assoc; reflexivity.

Ltac trace_from :=
  first [ exists []; rewrite app_nil_r; reflexivity
        | eexists; rewrite <- ?app_assoc; reflexivity ].

Ltac fs_incl :=
  repeat match goal with
  | H : adds_dir _ _ _ |- _ => destruct H as (H & _ & _)
  | H : negb _ = true |- _ => apply negb_true_iff in H
  end;
  repeat first
    [ assumption
    | reflexivity
    | match goal with
      | H : ?m ⊆ ?m' |- _ ⊆ ?m' => etrans; [|exact H]; clear H
      | |- _ ⊆ <[_:=_]> _ => etrans; [|apply insert_new_subseteq; assumption]
      end ].

Lemma export_spec env w :
  wp (export env) (fun _ => exported env w) (fun _ => not_exported w) w.
Proof.
  repeat wp_go.
  all: unfold exported, not_exported, export_cmd; simpl_world.
  all: rewrite ?basedir_path_set_key_id, ?reprepro_cmd_set_key_id in *.
  all: try (split_and!; reflexivity).
  all: split_and!; try reflexivity; try trace_ext; try trace_from; try fs_incl.
Qed.

Lemma process_changes_spec env s f w :
  wp (process_changes env s f) (fun _ => published env s f w)
     (fun _ => not_published env s f w) w.
Proof.
  unfold process_changes.
  wp_prim. apply wp_ensure_directory_structure; simpl_world.
  2:{ intros; split_and!; try reflexivity. left. split; [reflexivity|]. by left. }
  intros m Hm. wp_prim. unfold remove_ddebs_from_changes. wp_prim. wp_prim.
  assert (Hunread : (forall c, m !! f <> Some (Manifest c)) ->
            forall c, fs w !! f <> Some (Manifest c)).
  { intros Hn c Hc. apply (Hn c). destruct Hm as (Hsub & _).
    eapply lookup_weaken; eassumption. }
  assert (Hearly : (forall c, m !! f <> Some (Manifest c)) ->
            not_published env s f w
              (record (ERender (basedir_path env (repository w)))
                      (set_fs (fun _ => m) w))).
  { intros Hn. split_and!; try reflexivity. left. split; [reflexivity|].
    right. split; [reflexivity|]. by apply Hunread. }
  destruct (m !! f) as [n|] eqn:Hf; [|wp_prim; apply Hearly; congruence].
  destruct n as [| | |c]; try (wp_prim; apply Hearly; congruence).
  clear Hearly Hunread.
  assert (Hw : fs w !! f = Some (Manifest c)).
  { destruct Hm as (_ & Hb & Ho).
    destruct (decide (f = basedir_path env (repository w))) as [->|Hne];
      [congruence|]. rewrite <- Ho; assumption. }
  cbv beta iota. repeat wp_prim.
  apply wp__reprepro; cbv zeta; simpl_world.
  3:{ intros n Hn Hne. exfalso. apply Hne.
      destruct Hm as (_ & Hb & _).
      destruct (decide (f = basedir_path env (repository w))) as [->|Hne'];
        [congruence|].
      rewrite lookup_insert_ne in Hn by congruence. congruence. }
  2:{ intros m' Hm' Hrc. split_and!; try reflexivity. right. exists c.
      split_and!; simpl_world; [exact Hw| |by left|].
      - eapply adds_dir_lookup; [exact Hm'|]. apply lookup_insert_eq.
      - exists []. unfold include_events, include_cmd.
        rewrite <- !app_assoc. reflexivity. }
  intros m' Hm' Hrc. unfold reprepro_effect. repeat wp_prim.
  assert (Hf' : m' !! f = Some (Manifest (strip_ddebs c))).
  { eapply adds_dir_lookup; [exact Hm'|]. apply lookup_insert_eq. }
  rewrite Hf'.
  eapply wp_mono; [| |apply export_spec]; cbn beta; simpl_world.
  - intros _ w' (Hs & Hp & Hi & Hfs & evs & Htr). simpl_world. repeat wp_prim.
    exists c. split_and!; try assumption.
    + eapply lookup_weaken; eassumption.
    + congruence.
    + exists evs. rewrite Htr. unfold include_events, include_cmd. f_equal.
      rewrite <- !app_assoc. reflexivity.
  - intros e w' (Hs & Hp & Hi & Hfs & evs & Htr). simpl_world.
    split_and!; try assumption.
    right. exists c. split_and!; [exact Hw| |by right|].
    + eapply lookup_weaken; eassumption.
    + exists evs. rewrite Htr. unfold include_events, include_cmd.
      rewrite <- !app_assoc. reflexivity.
Qed.

(** ** The logger of a BuildRecord *)

Lemma adds_dirs_refl m : adds_dirs m m.
Proof. split; [reflexivity|auto]. Qed.

Lemma adds_dirs_trans m1 m2 m3 : adds_dirs m1 m2 -> adds_dirs m2 m3 -> adds_dirs m1 m3.
Proof.
  intros [S1 O1] [S2 O2]. split; [by etrans|].
  intros q. destruct (O2 q) as [->|]; auto.
Qed.

Lemma adds_dir_dirs d m m' : adds_dir d m m' -> adds_dirs m m'.
Proof.
  intros (S1 & D1 & O1). split; [exact S1|].
  intros q. destruct (decide (q = d)) as [->|Hne]; auto.
Qed.

Lemma adds_dirs_lookup m m' p n : adds_dirs m m' -> m !! p = Some n -> m' !! p = Some n.
Proof. intros [S1 _] Hp. eapply lookup_weaken; eassumption. Qed.

Lemma wp_makedirs_if_missing d Q E w :
  (forall m, adds_dir d (fs w) m -> Q tt (set_fs (fun _ => m) w)) ->
  (forall n, fs w !! d = Some n -> n <> Dir -> E (OSError d) w) ->
  wp (when (negb match fs w !! d with Some Dir => true | _ => false end) (makedirs d))
     Q E w.
Proof.
  intros HQ HE.
  destruct (fs w !! d) as [n|] eqn:Hd.
  - assert (Hn : n = Dir \/ n <> Dir) by (destruct n; auto; right; discriminate).
    destruct Hn as [->|Hn].
    + repeat wp_prim; rewrite ?Hd in *; try discriminate.
      rewrite <- (set_fs_id w). apply HQ. split_and!; auto.
    + repeat wp_prim; rewrite ?Hd in *; try discriminate.
      * eapply HE; eauto.
      * destruct n; try discriminate; congruence.
  - repeat wp_prim; rewrite ?Hd in *; try discriminate.
    apply (HQ (<[d:=Dir]> (fs w))). split_and!;
      [by apply insert_subseteq | apply lookup_insert_eq |].
    intros p Hp. by apply lookup_insert_ne.
Qed.

Lemma wp_buildlog env Q w :
  let p := buildlog_path env (repository w) (self w) (br w) in
  (forall m, adds_dirs (fs w) m -> Q p (set_fs (fun _ => m) w)) ->
  wp (buildlog env) Q (fun _ _ => True) w.
Proof.
  intros p HQ. unfold buildlog, buildlogdir.
  do 5 wp_prim. fold (outdir_path env (repository w)).
  apply wp_ensure_dir; [|done]. intros m1 H1. do 7 wp_prim.
  fold (buildlog_path env (repository w) (self w) (br w)). fold p.
  apply (wp_makedirs_if_missing _ _ _ (set_fs (fun _ => m1) w)); [|done].
  simpl_world. intros m2 H2.
  wp_prim. apply HQ.
  eapply adds_dirs_trans; eapply adds_dir_dirs; eassumption.
Qed.

Lemma logger_first_access env w :
  let p := buildlog_path env (repository w) (self w) (br w) in
  let n := logger_name_of (self w) (br w) in
  _saved_logpath (br w) = None ->
  (length (default [] (loggers w !! n)) <= 1)%nat ->
  fs w !! p = None ->
  wp (logger env)
     (fun lg w' => lg = Some n /\ logging_at n p [] w' /\ same_build w w' /\
                   trace w' = trace w)
     (fun _ _ => True) w.
Proof.
  intros p n Hsaved Hlen Hp. unfold logger.
  wp_prim. apply wp_buildlog. fold p. intros m [Hm Hd].
  do 3 wp_prim. rewrite Hsaved.
  rewrite bool_decide_false by discriminate.
  wp_prim; [|discriminate]. clear H.
  do 7 wp_prim. fold (logger_name_of (self w) (br w)). fold n.
  do 4 wp_prim.
  assert (Hrm : remove_handlers (length (default [] (loggers w !! n))) 0
                  (default [] (loggers w !! n)) = []).
  { destruct (default [] (loggers w !! n)) as [|h [|h' hs]]; cbn in *;
      [reflexivity|reflexivity|lia]. }
  destruct (Hd p) as [Hmp|Hmp]; rewrite Hmp, ?Hp; repeat wp_prim; [|exact I].
  unfold logging_at, same_build. simpl_world. cbn [_logger _saved_logpath version br_build_counter set_logging].
  rewrite Hrm, !lookup_insert_eq. cbn [default app].
  split_and!; reflexivity.
Qed.

Lemma emit_all env n p msgs : forall L w,
  logging_at n p L w ->
  wp (for_each msgs (emit env (Some n)))
     (fun _ w' =>
        logging_at n p (L ++ stamp env (clock w) msgs) w' /\
        clock w' = (clock w + length msgs)%nat /\
        self w' = self w /\ repository w' = repository w /\ br w' = br w /\
        trace w' = trace w /\
        forall q, q <> p -> fs w' !! q = fs w !! q)
     (fun _ _ => False) w.
Proof.
  induction msgs as [|msg msgs IH]; intros L w (Hl & Hs & Hh & Hf).
  - cbn [for_each stamp]. wp_prim. rewrite app_nil_r, Nat.add_0_r.
    unfold logging_at. auto 10.
  - cbn [for_each stamp]. wp_prim. unfold emit. wp_prim.
    set (line := asctime env (clock w) +:+ ": " +:+ msg).
    match goal with |- wp _ _ _ ?w0 => set (w1 := w0) end.
    assert (Hfs : fs w1 = <[p := Log (L ++ [line])]> (fs w)).
    { subst w1. simpl_world. rewrite Hh. unfold append_line. cbn.
      rewrite Hf. reflexivity. }
    assert (H1 : logging_at n p (L ++ [line]) w1).
    { unfold logging_at. rewrite Hfs. subst w1. simpl_world.
      split_and!; try assumption. apply lookup_insert_eq. }
    eapply wp_mono; [| |apply (IH _ _ H1)]; cbn beta; [|auto].
    intros _ w' (Hl' & Hc & Hse & Hr & Hb & Ht & Ho).
    rewrite <- app_assoc in Hl'. cbn [app] in Hl'.
    rewrite Hfs in Ho. subst w1. simpl_world.
    split_and!; try assumption.
    + rewrite Hc. cbn [length]. lia.
    + intros q Hq. rewrite (Ho q Hq). by apply lookup_insert_ne.
Qed.

Lemma join_nonempty a b : b <> "" -> OsPath.join a b <> "".
Proof.
  intros Hb. unfold OsPath.join.
  destruct (Py.startswith b "/"); [exact Hb|].
  destruct (_ || _); destruct a; cbn; try discriminate; exact Hb.
Qed.

Lemma buildlog_path_nonempty env r s b : buildlog_path env r s b <> "".
Proof.
  unfold buildlog_path. apply join_nonempty.
  unfold logpath. destruct (Py.truthy (version b)); apply join_nonempty;
    destruct (long_name (urlparse_path env) s); discriminate.
Qed.

Lemma logger_path_changed env w old L :
  let p := buildlog_path env (repository w) (self w) (br w) in
  let n := logger_name_of (self w) (br w) in
  logging_at n old L w ->
  p <> old -> old <> "" ->
  wp (logger env)
     (fun lg w' => lg = Some n /\ logging_at n p L w' /\ same_build w w' /\
                   fs w' !! old = None /\
                   trace w' = trace w ++ [ERename old p])
     (fun _ _ => True) w.
Proof.
  intros p n (Hl & Hs & Hh & Hf) Hne Hold. unfold logger.
  wp_prim. apply wp_buildlog. fold p. intros m Hm.
  do 3 wp_prim. rewrite Hs.
  rewrite bool_decide_false by congruence.
  wp_prim; [|discriminate]. clear H.
  do 4 wp_prim.
  rewrite (adds_dirs_lookup _ _ _ _ Hm Hf).
  assert (Ht : Py.truthy (Some old) = true) by (destruct old; [congruence|reflexivity]).
  rewrite Ht. cbn [andb]. wp_prim; [|discriminate]. clear H.
  wp_prim. apply wp_buildlog. simpl_world. fold p. intros m' Hm'.
  assert (Hmm : adds_dirs (fs w) m') by (eapply adds_dirs_trans; eassumption).
  do 5 wp_prim. rewrite (adds_dirs_lookup _ _ _ _ Hmm Hf).
  cbv iota. wp_prim. wp_prim; [wp_prim; exact I|].
  repeat wp_prim; rewrite ?lookup_insert_eq in *; try discriminate.
  fold (logger_name_of (self w) (br w)). fold n.
  unfold logging_at, same_build. simpl_world.
  cbn [_logger _saved_logpath version br_build_counter set_logging].
  rewrite Hh. cbn.
  rewrite !lookup_insert_eq. cbn.
  split_and!; try reflexivity.
  rewrite lookup_insert_ne by exact Hne. apply lookup_delete_eq.
Qed.

Lemma stamp_app env msgs1 msgs2 : forall c,
  stamp env c (msgs1 ++ msgs2) =
  stamp env c msgs1 ++ stamp env (c + length msgs1) msgs2.
Proof.
  induction msgs1 as [|m r IH]; intros c; cbn [app stamp length].
  - rewrite Nat.add_0_r. reflexivity.
  - rewrite IH. f_equal. f_equal. f_equal. lia.
Qed.

Lemma logpath_ext up s b b' :
  version b' = version b -> br_build_counter b' = br_build_counter b ->
  logpath up s b' = logpath up s b.
Proof. intros Hv Hc. unfold logpath. rewrite Hv, Hc. reflexivity. Qed.

Lemma logged_build_spec env w v msgs1 msgs2 :
  let old := buildlog_path env (repository w) (self w) (br w) in
  let new := buildlog_path env (repository w) (self w) (set_version (Some v) (br w)) in
  _saved_logpath (br w) = None ->
  (length (default [] (loggers w !! logger_name_of (self w) (br w))) <= 1)%nat ->
  fs w !! old = None ->
  new <> old ->
  wp (logged_build env msgs1 v msgs2)
     (fun _ w' =>
        fs w' !! old = None /\
        trace w' = trace w ++ [ERename old new] /\
        fs w' !! new = Some (Log (stamp env (clock w) (msgs1 ++ msgs2))))
     (fun _ _ => True) w.
Proof.
  intros old new Hsaved Hlen Hold Hne. unfold logged_build.
  set (n := logger_name_of (self w) (br w)) in *.
  wp_prim. eapply wp_mono; [| |apply logger_first_access; assumption];
    cbn beta; [|auto].
  fold old n. intros lg w1 (-> & Hl1 & (Hs1 & Hr1 & Hc1 & Hv1 & Hb1) & Ht1).
  wp_prim. eapply wp_mono; [| |apply (emit_all env n old msgs1 [] w1 Hl1)];
    cbn beta; [|intros ? ? []].
  cbn [app]. intros _ w2 (Hl2 & Hc2 & Hs2 & Hr2 & Hb2 & Ht2 & Ho2).
  do 3 wp_prim.
  set (w3 := set_br (set_version (Some v)) w2).
  assert (Hp3 : buildlog_path env (repository w3) (self w3) (br w3) = new).
  { subst w3 new. simpl_world. rewrite Hs2, Hr2, Hs1, Hr1, Hb2.
    unfold buildlog_path. f_equal. apply logpath_ext; cbn; [reflexivity|exact Hb1]. }
  assert (Hn3 : logger_name_of (self w3) (br w3) = n).
  { subst w3 n. simpl_world. rewrite Hs2, Hs1, Hb2. unfold logger_name_of.
    cbn [br_build_counter set_version]. rewrite Hb1. reflexivity. }
  assert (Hl3 : logging_at (logger_name_of (self w3) (br w3)) old
                  (stamp env (clock w1) msgs1) w3).
  { rewrite Hn3. destruct Hl2 as (? & ? & ? & ?). subst w3.
    unfold logging_at. simpl_world. cbn. auto. }
  eapply wp_mono;
    [| |apply (logger_path_changed env w3 old _ Hl3);
         [rewrite Hp3; exact Hne|apply buildlog_path_nonempty]];
    cbn beta; [|auto].
  rewrite Hp3, Hn3.
  intros lg w4 (-> & Hl4 & (Hs4 & Hr4 & Hc4 & Hv4 & Hb4) & Hf4 & Ht4).
  eapply wp_mono; [| |apply (emit_all env n new msgs2 _ w4 Hl4)];
    cbn beta; [|intros ? ? []].
  intros _ w5 (Hl5 & Hc5 & Hs5 & Hr5 & Hb5 & Ht5 & Ho5).
  split_and!.
  - rewrite Ho5 by (intros E; apply Hne; symmetry; exact E). exact Hf4.
  - rewrite Ht5, Ht4. subst w3. simpl_world. rewrite Ht2, Ht1. reflexivity.
  - destruct Hl5 as (_ & _ & _ & Hf5). rewrite Hf5.
    rewrite stamp_app, Hc4. subst w3. simpl_world. rewrite Hc2, Hc1. reflexivity.
Qed.

(** C7: a build takes its logger, logs [msgs1], learns its version,
    takes its logger again and logs [msgs2].  When the version moves the
    log path, the second access renames the file at the provisional path
    to the new path: nothing is left at the old path, and the file at
    the new path holds the lines of [msgs1] and then those of [msgs2],
    each once, in the order they were logged. *)
Theorem log_continuity env w v msgs1 msgs2 w' :
  let old := buildlog_path env (repository w) (self w) (br w) in
  let new := buildlog_path env (repository w) (self w) (set_version (Some v) (br w)) in
  _saved_logpath (br w) = None ->
  (length (default [] (loggers w !! logger_name_of (self w) (br w))) <= 1)%nat ->
  fs w !! old = None ->
  new <> old ->
  logged_build env msgs1 v msgs2 w = (Return tt, w') ->
  fs w' !! old = None /\
  trace w' = trace w ++ [ERename old new] /\
  fs w' !! new = Some (Log (stamp env (clock w) (msgs1 ++ msgs2))).
Proof.
  intros old new H1 H2 H3 H4 Hrun.
  exact (wp_result _ _ _ _ _ _ (logged_build_spec env w v msgs1 msgs2 H1 H2 H3 H4) Hrun).
Qed.

(** C7, at [demo_world]: two lines, version 1.0, one line. *)
Lemma log_continuity_witness :
  let old := "/srv/www/alice/repo/buildlogs/foo_bar_baz/foo_bar_baz_1.tmp.log" in
  let new := "/srv/www/alice/repo/buildlogs/foo_bar_baz/foo_bar_baz_1.0.log" in
  fs demo_logged !! old = None /\
  trace demo_logged = [ERename old new] /\
  fs demo_logged !! new = Some (Log ["t0: one"; "t1: two"; "t2: three"]).
Proof.
  apply (log_continuity demo_env demo_world "1.0" ["one"; "two"] ["three"] demo_logged).
  - reflexivity.
  - vm_compute. lia.
  - vm_compute. reflexivity.
  - vm_compute. discriminate.
  - vm_compute. reflexivity.
Defined.

(** ** The manifests of a build attempt *)







(** ** remove_ddebs_from_changes *)

Lemma strip_section_lookup c sec k :
  Deb822.sections (strip_section c sec) !! k =
    if decide (k = sec) then List.filter not_ddeb <$> Deb822.sections c !! k
    else Deb822.sections c !! k.
Proof.
  unfold strip_section. destruct (Deb822.sections c !! sec) as [l|] eqn:Hl; cbn.
  - destruct (decide (k = sec)) as [->|Hne].
    + rewrite lookup_insert_eq, Hl. reflexivity.
    + rewrite lookup_insert_ne by congruence. reflexivity.
  - destruct (decide (k = sec)) as [->|Hne]; [rewrite Hl|]; reflexivity.
Qed.

Lemma strip_section_fields c sec :
  Deb822.fields (strip_section c sec) = Deb822.fields c.
Proof. unfold strip_section. destruct (_ !! _); reflexivity. Qed.

Lemma strip_ddebs_lookup c k :
  Deb822.sections (strip_ddebs c) !! k =
    if bool_decide (k ∈ ddeb_sections) then List.filter not_ddeb <$> Deb822.sections c !! k
    else Deb822.sections c !! k.
Proof.
  unfold strip_ddebs, ddeb_sections. cbn [foldl]. rewrite !strip_section_lookup.
  destruct (decide (k = "Files")) as [->|H1];
    [rewrite bool_decide_true by (rewrite !elem_of_cons; auto);
     repeat (destruct (decide _); try discriminate); reflexivity|].
  destruct (decide (k = "Checksums-Sha256")) as [->|H2];
    [rewrite bool_decide_true by (rewrite !elem_of_cons; auto);
     repeat (destruct (decide _); try discriminate); reflexivity|].
  destruct (decide (k = "Checksums-Sha1")) as [->|H3];
    [rewrite bool_decide_true by (rewrite !elem_of_cons; auto); reflexivity|].
  rewrite bool_decide_false; [reflexivity|].
  rewrite !elem_of_cons, elem_of_nil. tauto.
Qed.

Lemma strip_ddebs_fields c : Deb822.fields (strip_ddebs c) = Deb822.fields c.
Proof.
  unfold strip_ddebs, ddeb_sections. cbn [foldl].
  rewrite !strip_section_fields. reflexivity.
Qed.

(** C4: [process_changes] of a manifest [c] rewrites the file with
    [strip_ddebs c]: in each of [Checksums-Sha1], [Checksums-Sha256]
    and [Files] the entries whose name ends in [.ddeb] are gone and the
    others stay, in their order; the other sections and fields are as
    they were.  When [process_changes] returns, the rewrite was followed
    by the [include] of the repository tool, which took in the stripped
    manifest, and last by the [export], after which the indices list
    what is in the pool.  When it raises, the indices are as before, and
    either nothing was done, or the manifest was rewritten and then the
    [include] issued. *)
Theorem process_changes_strips_ddebs env s f c w :
  fs w !! f = Some (Manifest c) ->
  let c' := strip_ddebs c in
  let r := repository w in
  (forall sec,
     Deb822.sections c' !! sec =
       if bool_decide (sec ∈ ddeb_sections)
       then List.filter not_ddeb <$> Deb822.sections c !! sec
       else Deb822.sections c !! sec) /\
  Deb822.fields c' = Deb822.fields c /\
  match process_changes env s f w with
  | (Return _, w') =>
      fs w' !! f = Some (Manifest c') /\
      pool w' = pool w ++ [upload_of s f c'] /\
      index w' = pool w' /\
      exists evs,
        trace w' = (trace w ++ include_events env r s f ++ evs) ++ [export_cmd env r]
  | (Raise _, w') =>
      index w' = index w /\
      (trace w' = trace w /\ pool w' = pool w \/
       fs w' !! f = Some (Manifest c') /\
       exists evs, trace w' = trace w ++ include_events env r s f ++ evs)
  end.
Proof.
  intros Hf c' r.
  split; [apply strip_ddebs_lookup|]. split; [apply strip_ddebs_fields|].
  pose proof (process_changes_spec env s f w) as H. unfold wp in H.
  destruct (process_changes env s f w) as [[[]|e] w'].
  - destruct H as (c0 & Hc0 & Hf' & Hp & Hi & _ & Ht).
    assert (c0 = c) as -> by congruence.
    split_and!; assumption.
  - destruct H as (_ & Hi & [[Hp [Ht|[_ Hn]]]|(c0 & Hc0 & Hf' & _ & Ht)]).
    + split; [exact Hi|]. left. split; assumption.
    + destruct (Hn c Hf).
    + assert (c0 = c) as -> by congruence.
      split; [exact Hi|]. right. split; assumption.
Qed.

(** C4, for the manifest that lists [foo.ddeb] and [foo.deb]. *)
Lemma process_changes_strips_ddebs_witness :
  fs demo_included !! foo_changes = Some (Manifest (strip_ddebs foo_manifest)) /\
  Deb822.sections (strip_ddebs foo_manifest) !! "Files" = Some [deb "foo.deb"] /\
  Deb822.sections (strip_ddebs foo_manifest) !! "Checksums-Sha1" = Some [deb "foo.deb"] /\
  Deb822.sections (strip_ddebs foo_manifest) !! "Checksums-Sha256" = Some [deb "foo.deb"] /\
  pool demo_included = [upload_of "aasemble" foo_changes (strip_ddebs foo_manifest)] /\
  index demo_included = pool demo_included.
Proof.
  assert (Hrun : process_changes demo_env "aasemble" foo_changes upload_world
                 = (Return tt, demo_included)) by (vm_compute; reflexivity).
  pose proof (process_changes_strips_ddebs demo_env "aasemble" foo_changes
                foo_manifest upload_world) as H.
  cbv zeta in H. rewrite Hrun in H.
  destruct H as (Hsec & _ & Hfs & Hpool & Hindex & _); [vm_compute; reflexivity|].
  split_and!; [exact Hfs| | | |exact Hpool|exact Hindex].
  all: rewrite Hsec; vm_compute; reflexivity.
Defined.

(** ** The key of a repository *)





(** ** ExternalDependency.deb_line *)

(** C10: with [components] unset, [deb_line] is
    ['deb <url> <series> None']. *)
Theorem deb_line_components_unset u sr k :
  deb_line {| url := u; dep_series := sr; components := None; key := k |}
  = "deb " +:+ u +:+ " " +:+ sr +:+ " None".
Proof. reflexivity. Qed.

(** * Further properties of models.py

    What the methods outside the stated claims do: names and addresses,
    the parsing of what git and gpg print, failures of the outside, the
    handlers of a logger, the records of a build attempt and the access
    checks. *)

(** ** Splitting and joining strings *)

Lemma lacks_slashless s : lacks "/" s <-> slashless s.
Proof. induction s as [|a r IH]; cbn; [tauto|]. rewrite IH. tauto. Qed.

Lemma lacks_app c a b : lacks c a -> lacks c b -> lacks c (a +:+ b).
Proof. induction a as [|x r IH]; cbn; [auto|]. intros [? ?] ?; split; auto. Qed.

Lemma lacks_app_inv c a b : lacks c (a +:+ b) -> lacks c a /\ lacks c b.
Proof. induction a as [|x r IH]; cbn; [auto|]. intros [? H]. destruct (IH H). auto. Qed.

Lemma split_lacks sep s : Forall (lacks sep) (Py.split sep s).
Proof.
  induction s as [|a r IH].
  - repeat constructor.
  - rewrite split_cons. destruct (Ascii.eqb_spec a sep) as [->|Hne].
    + constructor; [exact I | exact IH].
    + destruct (Py.split sep r) as [|h t].
      * repeat constructor. exact Hne.
      * inversion IH; subst. constructor; [|assumption]. split; assumption.
Qed.

Lemma split_nonempty sep s : Py.split sep s <> [].
Proof.
  destruct s as [|a r]; [discriminate|]. rewrite split_cons.
  destruct (Ascii.eqb a sep); [discriminate|].
  destruct (Py.split sep r); discriminate.
Qed.

Lemma split_app_sep sep a b :
  lacks sep a -> Py.split sep (a +:+ String sep b) = a :: Py.split sep b.
Proof.
  induction a as [|x r IH]; cbn [lacks]; intros H.
  - change ("" +:+ String sep b) with (String sep b). rewrite split_cons.
    rewrite Ascii.eqb_refl. reflexivity.
  - destruct H as [Hx Hr]. change (String x r +:+ String sep b) with (String x (r +:+ String sep b)).
    rewrite split_cons. destruct (Ascii.eqb_spec x sep) as [E|_]; [contradiction|].
    rewrite (IH Hr). reflexivity.
Qed.

Lemma split_lacks_id sep a : lacks sep a -> Py.split sep a = [a].
Proof.
  induction a as [|x r IH]; cbn [lacks]; intros H; [reflexivity|].
  destruct H as [Hx Hr]. rewrite split_cons.
  destruct (Ascii.eqb_spec x sep) as [E|_]; [contradiction|].
  rewrite (IH Hr). reflexivity.
Qed.

Lemma split_join sep l :
  Forall (lacks sep) l -> l <> [] ->
  Py.split sep (Py.join (String sep "") l) = l.
Proof.
  unfold Py.join. induction 1 as [|x l Hx Hl IH]; [congruence|]. intros _.
  destruct l as [|y l].
  - cbn. apply split_lacks_id, Hx.
  - change (String.concat (String sep "") (x :: y :: l))
      with (x +:+ String sep (String.concat (String sep "") (y :: l))).
    rewrite (split_app_sep _ _ _ Hx), IH by discriminate. reflexivity.
Qed.

(** ** PackageSource.name and long_name *)

Lemma split_app sep a b :
  Py.split sep (a +:+ String sep b) = Py.split sep a ++ Py.split sep b.
Proof.
  induction a as [|x r IH].
  - change ("" +:+ String sep b) with (String sep b). rewrite split_cons.
    rewrite Ascii.eqb_refl. reflexivity.
  - change (String x r +:+ String sep b) with (String x (r +:+ String sep b)).
    rewrite !split_cons, IH. destruct (Ascii.eqb x sep); [reflexivity|].
    pose proof (split_nonempty sep r) as Hne.
    destruct (Py.split sep r) as [|h t]; [congruence|reflexivity].
Qed.

Lemma last_app_nonempty (l1 l2 : list string) :
  l2 <> [] -> Py.last (l1 ++ l2) = Py.last l2.
Proof.
  unfold Py.last. intros Hne. induction l1 as [|x l1 IH]; [reflexivity|].
  cbn [app]. destruct (l1 ++ l2) eqn:E.
  - destruct l1; [cbn in E; congruence|discriminate].
  - exact IH.
Qed.

Lemma last_In (l : list string) : l <> [] -> In (Py.last l) l.
Proof.
  unfold Py.last. induction l as [|x l IH]; [congruence|]. intros _.
  destruct l as [|y l]; [left; reflexivity|]. right. apply IH. discriminate.
Qed.

Lemma replace_lacks a b s : a <> b -> lacks a (Py.replace a b s).
Proof.
  intros Hab. induction s as [|c r IH]; [exact I|]. cbn [Py.replace lacks].
  split; [|exact IH].
  destruct (Ascii.eqb_spec c a) as [->|Hne]; [congruence|exact Hne].
Qed.

Lemma replace_keeps_lacks a b c s :
  b <> c -> lacks c s -> lacks c (Py.replace a b s).
Proof.
  intros Hb. induction s as [|x r IH]; [auto|]. cbn [Py.replace lacks].
  intros [Hx Hr]. split; [|auto].
  destruct (Ascii.eqb x a); assumption.
Qed.

(** X1: the [name] of a PackageSource, whatever its [git_url], contains
    neither a slash nor an underscore. *)
Theorem name_has_no_separator (s : PackageSource) :
  lacks "/" (name s) /\ lacks "_" (name s).
Proof.
  unfold name. split.
  - apply replace_keeps_lacks; [discriminate|].
    pose proof (split_lacks "/" (git_url s)) as H. rewrite Forall_forall in H.
    apply H, list_elem_of_In, last_In, split_nonempty.
  - apply replace_lacks. discriminate.
Qed.

(** X2: when [git_url] ends in [/base], [base] without a slash, the
    [name] is [base] with every underscore turned into a hyphen; it is
    empty exactly when the URL ends in a slash. *)
Theorem name_of_url (s : PackageSource) pre base :
  git_url s = pre +:+ "/" +:+ base ->
  lacks "/" base ->
  name s = Py.replace "_" "-" base /\
  (name s = "" <-> base = "").
Proof.
  intros Hu Hb. unfold name. rewrite Hu.
  change (pre +:+ "/" +:+ base) with (pre +:+ String "/" base).
  rewrite split_app, last_app_nonempty by apply split_nonempty.
  rewrite (split_lacks_id _ _ Hb). cbn [Py.last List.last].
  split; [reflexivity|].
  destruct base; cbn; [tauto|]. split; discriminate.
Qed.

(** X2, for [demo_source]: [bar_baz] gives [bar-baz]. *)
Lemma name_of_url_witness :
  name demo_source = "bar-baz".
Proof.
  apply (name_of_url demo_source "https://github.com/foo" "bar_baz").
  - reflexivity.
  - cbn. repeat split; discriminate.
Defined.

Lemma nonempty_components cs : Forall component cs -> Py.nonempty cs = cs.
Proof.
  unfold Py.nonempty. induction 1 as [|c cs [Hc _] _ IH]; [reflexivity|].
  cbn [List.filter]. destruct (String.eqb_spec c ""); [contradiction|].
  cbn [negb]. rewrite IH. reflexivity.
Qed.

(** X3: when the path of [git_url] is [/c1/.../cn], every [ci] not empty
    and without a slash, [long_name] is [c1_..._cn]. *)
Theorem long_name_of_path up (s : PackageSource) cs :
  up (git_url s) = "/" +:+ Py.join "/" cs ->
  Forall component cs ->
  long_name up s = Py.join "_" cs.
Proof.
  intros Hp Hcs. unfold long_name. rewrite Hp.
  change ("/" +:+ Py.join "/" cs) with (String "/" (Py.join "/" cs)).
  rewrite split_cons. cbn [Ascii.eqb Bool.eqb andb]. cbn [Py.nonempty List.filter String.eqb negb].
  destruct cs as [|c cs]; [reflexivity|].
  rewrite split_join; [|eapply Forall_impl; [exact Hcs|intros ? [_ ?]; assumption]|discriminate].
  fold (Py.nonempty (c :: cs)). rewrite nonempty_components by exact Hcs. reflexivity.
Qed.

(** X3, for [demo_source]. *)
Lemma long_name_of_path_witness :
  long_name simple_url_path demo_source = "foo_bar_baz".
Proof.
  apply (long_name_of_path simple_url_path demo_source ["foo"; "bar_baz"]).
  - reflexivity.
  - repeat constructor; cbn; try discriminate.
Defined.

(** X4: [long_name] does not tell the path [/a/b] from the path [/a_b]:
    two such sources have the same [long_name], and the same [logpath]
    for every BuildRecord. *)
Theorem long_name_collision up (s1 s2 : PackageSource) a b1 :
  up (git_url s1) = "/" +:+ a +:+ "/" +:+ b1 ->
  up (git_url s2) = "/" +:+ a +:+ "_" +:+ b1 ->
  component a -> component b1 ->
  long_name up s1 = long_name up s2 /\
  forall b, logpath up s1 b = logpath up s2 b.
Proof.
  intros H1 H2 [Ha Hsa] [Hb Hsb].
  assert (E : long_name up s1 = long_name up s2).
  { unfold long_name. rewrite H1, H2.
    change ("/" +:+ a +:+ "/" +:+ b1) with (String "/" (a +:+ String "/" b1)).
    change ("/" +:+ a +:+ "_" +:+ b1) with (String "/" (a +:+ "_" +:+ b1)).
    rewrite !split_cons. cbn [Ascii.eqb Bool.eqb andb].
    rewrite (split_app_sep _ _ _ Hsa), (split_lacks_id _ _ Hsb).
    rewrite (split_lacks_id "/" (a +:+ "_" +:+ b1)).
    2:{ apply lacks_app; [exact Hsa|]. split; [discriminate|exact Hsb]. }
    unfold Py.nonempty. cbn [List.filter String.eqb negb].
    destruct (String.eqb_spec a ""); [contradiction|].
    destruct (String.eqb_spec b1 ""); [contradiction|].
    destruct (String.eqb_spec (a +:+ "_" +:+ b1) "") as [E|_].
    { destruct a; [contradiction|discriminate]. }
    reflexivity. }
  split; [exact E|]. intros b. unfold logpath. rewrite E. reflexivity.
Qed.

(** X4, for [/foo/bar] and [/foo_bar]. *)
Lemma long_name_collision_witness :
  long_name simple_url_path slash_source = long_name simple_url_path underscore_source.
Proof.
  apply (long_name_collision simple_url_path slash_source underscore_source "foo" "bar");
    try reflexivity; split; cbn; try discriminate; repeat split; discriminate.
Defined.

(** ** The address of the build log; source lists *)

Lemma endswith_app x t suf :
  t <> "" -> String.length suf = 1%nat ->
  Py.endswith (x +:+ t) suf = Py.endswith t suf.
Proof.
  intros Hne Hs. induction x as [|c r IH]; [reflexivity|].
  change (String c r +:+ t) with (String c (r +:+ t)).
  cbn [Py.endswith]. rewrite IH.
  replace (String c (r +:+ t) =? suf)%string with false; [reflexivity|].
  symmetry. apply String.eqb_neq. intros E. subst suf. cbn in Hs.
  destruct r; [destruct t; [contradiction|discriminate]|discriminate].
Qed.

Lemma join_relative d l :
  d <> "" -> Py.endswith d "/" = false -> Py.startswith l "/" = false ->
  OsPath.join d l = d +:+ "/" +:+ l.
Proof.
  intros Hd He Hl. unfold OsPath.join. rewrite Hl, He.
  destruct (String.eqb_spec d ""); [contradiction|reflexivity].
Qed.

Lemma logpath_relative up s b : Py.startswith (logpath up s b) "/" = false.
Proof.
  pose proof (long_name_slashless up s) as H.
  unfold logpath. destruct (Py.truthy (version b)); rewrite (join_long_name _ _ H);
    destruct (String.eqb_spec (long_name up s) "") as [E|Hne]; try reflexivity;
    apply (slashless_not_startswith _ _ H Hne).
Qed.

Lemma buildlogdir_shape o :
  OsPath.join o "buildlogs" <> "" /\ Py.endswith (OsPath.join o "buildlogs") "/" = false.
Proof.
  split; [apply join_nonempty; discriminate|].
  unfold OsPath.join. cbn [Py.startswith String.prefix].
  destruct (ascii_dec _ _) as [E|_]; [discriminate|].
  destruct (_ || _); rewrite endswith_app; reflexivity || discriminate.
Qed.

(** X5: the log of a build lies at [<outdir>/buildlogs/<logpath>] and is
    served at [<base_url>/buildlogs/<logpath>], with the same relative
    [logpath], which never begins with a slash: [os.path.join] never
    drops the directory of the build logs. *)
Theorem buildlog_url_matches_path base env r s b :
  let rel := logpath (urlparse_path env) s b in
  buildlog_path env r s b = OsPath.join (outdir_path env r) "buildlogs" +:+ "/" +:+ rel /\
  buildlog_url base env r s b = base_url base r +:+ "/buildlogs/" +:+ rel /\
  Py.startswith rel "/" = false.
Proof.
  intros rel. destruct (buildlogdir_shape (outdir_path env r)) as [Hne He].
  split_and!; [|reflexivity|apply logpath_relative].
  unfold buildlog_path. apply join_relative; [exact Hne|exact He|apply logpath_relative].
Qed.

(** X6: when the prefix, the [base_url] of the repository and the name of
    the series contain no space, the line of [_source_list] splits at
    its spaces into the prefix, [[trusted=yes]] if [force_trusted], the
    [base_url], the name of the series and [main]. *)
Theorem source_list_fields base r s prefix force_trusted :
  lacks " " prefix -> lacks " " (base_url base r) -> lacks " " (series_name s) ->
  Py.split " " (_source_list base r s prefix force_trusted) =
    prefix :: (if force_trusted then ["[trusted=yes]"] else [])
           ++ [base_url base r; series_name s; "main"].
Proof.
  intros Hp Hb Hs. unfold _source_list.
  set (tail := base_url base r +:+ String " " (series_name s +:+ String " " "main")).
  assert (Ht : Py.split " " tail = [base_url base r; series_name s; "main"]).
  { unfold tail. rewrite (split_app_sep _ _ _ Hb), (split_app_sep _ _ _ Hs). reflexivity. }
  destruct force_trusted.
  - change (Py.split " " (prefix +:+ String " " ("[trusted=yes]" +:+ String " " tail))
            = prefix :: ["[trusted=yes]"] ++ [base_url base r; series_name s; "main"]).
    rewrite (split_app_sep _ _ _ Hp).
    rewrite (split_app_sep " " "[trusted=yes]") by (cbn; repeat split; discriminate).
    rewrite Ht. reflexivity.
  - change (Py.split " " (prefix +:+ String " " tail)
            = prefix :: [] ++ [base_url base r; series_name s; "main"]).
    rewrite (split_app_sep _ _ _ Hp), Ht. reflexivity.
Qed.

(** X6, for [binary_source_list] with [force_trusted]. *)
Lemma source_list_fields_witness :
  Py.split " " (binary_source_list "https://repo.example.com" demo_repository
                  {| series_name := "aasemble" |} true)
  = ["deb"; "[trusted=yes]"; "https://repo.example.com/alice/repo"; "aasemble"; "main"].
Proof.
  apply (source_list_fields "https://repo.example.com" demo_repository
           {| series_name := "aasemble" |} "deb" true);
    cbn; repeat split; discriminate.
Defined.

(** ** The key id in the output of gpg *)

Lemma prefix_app p l : String.prefix p l = true -> exists r, l = p +:+ r.
Proof.
  revert l. induction p as [|c p IH]; intros l H; [exists l; reflexivity|].
  destruct l as [|d l]; [discriminate|]. cbn [String.prefix] in H.
  destruct (ascii_dec c d) as [->|]; [|discriminate].
  destruct (IH l H) as [r ->]. exists r. reflexivity.
Qed.

(** X7: a line that begins with [gpg: key ] has at least three words:
    [l.split(' ')[2]] in [generate_key] is within bounds, and the key
    id it yields contains no space. *)
Theorem key_of_line_in_bounds l :
  Py.startswith l "gpg: key " = true ->
  exists k rest,
    Py.split " " l = "gpg:" :: "key" :: k :: rest /\
    key_of_line l = k /\ lacks " " k.
Proof.
  intros H. destruct (prefix_app _ _ H) as [r ->].
  change ("gpg: key " +:+ r) with ("gpg:" +:+ String " " ("key" +:+ String " " r)).
  rewrite (split_app_sep " " "gpg:") by (cbn; repeat split; discriminate).
  rewrite (split_app_sep " " "key") by (cbn; repeat split; discriminate).
  pose proof (split_nonempty " " r) as Hne. pose proof (split_lacks " " r) as Hl.
  unfold key_of_line.
  rewrite (split_app_sep " " "gpg:") by (cbn; repeat split; discriminate).
  rewrite (split_app_sep " " "key") by (cbn; repeat split; discriminate).
  destruct (Py.split " " r) as [|k rest]; [congruence|].
  exists k, rest. split_and!; [reflexivity|reflexivity|]. by inversion Hl.
Qed.

(** X7, for a line that gpg prints. *)
Lemma key_of_line_in_bounds_witness :
  exists k rest,
    Py.split " " "gpg: key ABCD1234 marked as ultimately trusted"
      = "gpg:" :: "key" :: k :: rest /\
    key_of_line "gpg: key ABCD1234 marked as ultimately trusted" = k /\ lacks " " k.
Proof.
  apply (key_of_line_in_bounds "gpg: key ABCD1234 marked as ultimately trusted").
  reflexivity.
Defined.

(** ** GithubRepository.url *)

Lemma app_inv_head_string (a b c : string) : a +:+ b = a +:+ c -> b = c.
Proof. induction a as [|x a IH]; cbn; [auto|]. intros E. injection E as E. auto. Qed.

(** X8: the [url] of a GithubRepository determines its owner and its
    name, as long as owners contain no slash. *)
Theorem github_url_injective (g1 g2 : Github.GithubRepository) :
  lacks "/" (Github.repo_owner g1) -> lacks "/" (Github.repo_owner g2) ->
  Github.url g1 = Github.url g2 -> g1 = g2.
Proof.
  destruct g1 as [o1 n1], g2 as [o2 n2]. cbn [Github.repo_owner Github.repo_name].
  unfold Github.url. cbn [Github.repo_owner Github.repo_name].
  intros H1 H2 E. apply app_inv_head_string in E.
  assert (Es : Py.split "/" (o1 +:+ String "/" n1) = Py.split "/" (o2 +:+ String "/" n2))
    by (f_equal; exact E).
  rewrite (split_app_sep _ _ _ H1), (split_app_sep _ _ _ H2) in Es.
  injection Es as Eo _. subst o2.
  apply (app_inv_head_string o1 (String "/" n1) (String "/" n2)) in E.
  injection E as ->. reflexivity.
Qed.

(** X8, for [foo] and [bar/baz]. *)
Lemma github_url_injective_witness :
  {| Github.repo_owner := "foo"; Github.repo_name := "bar/baz" |}
  = {| Github.repo_owner := "foo"; Github.repo_name := "bar/baz" |}.
Proof.
  apply github_url_injective; [cbn; repeat split; discriminate..|reflexivity].
Defined.

(** ** poll: a failing query, and the hash in its output *)

(** X9: when the remote query fails, [poll] raises the error of the
    command; the instance and its row are as before, and nothing was
    run but the query. *)
Theorem poll_failure env w :
  returncode (subprocess env (clock w) (ls_remote (self w))) <> 0 ->
  exists w',
    poll env w = (Raise (CalledProcessError (ls_remote (self w))), w') /\
    self w' = self w /\ self_row w' = self_row w /\
    trace w' = trace w ++ [ECmd (ls_remote (self w))].
Proof.
  intros H. eexists. split.
  - unfold poll. unfold bind at 1. cbn [gets].
    unfold bind at 1. rewrite run_cmd_plain. fold (ls_remote (self w)).
    destruct (Z.eqb_spec (returncode (subprocess env (clock w) (ls_remote (self w)))) 0);
      [contradiction|reflexivity].
  - split_and!; reflexivity.
Qed.

(** X9, at [demo_world] with an outside where commands fail. *)
Lemma poll_failure_witness :
  exists w',
    poll failing_env demo_world
      = (Raise (CalledProcessError (ls_remote (self demo_world))), w') /\
    self w' = self demo_world /\ self_row w' = self_row demo_world /\
    trace w' = trace demo_world ++ [ECmd (ls_remote (self demo_world))].
Proof. apply (poll_failure failing_env demo_world). discriminate. Defined.

(** X10: of the output of the remote query [poll] takes what stands
    before the first tab: when that is not the revision last seen, it
    is set on the instance, saved, and [poll] answers [True]. *)
Theorem poll_reads_hash env w sha rest :
  let out := subprocess env (clock w) (ls_remote (self w)) in
  returncode out = 0 ->
  stdout out = sha +:+ String "009" rest ->
  lacks "009" sha ->
  last_seen_revision (self w) <> Some sha ->
  exists w',
    poll env w = (Return true, w') /\
    last_seen_revision (self w') = Some sha /\
    last_seen_revision (self_row w') = Some sha.
Proof.
  intros out Hok Hout Hsha Hne.
  pose proof (poll_run env w Hok) as E. cbn zeta in E. fold out in E.
  rewrite Hout in E. unfold remote_hash in E.
  rewrite (split_app_sep _ _ _ Hsha) in E. cbn [Py.first hd] in E.
  rewrite bool_decide_false in E by congruence.
  eexists; split; [exact E|]. split; reflexivity.
Qed.

(** X10, at [demo_world]: the remote answers [abc123], a tab and the ref. *)
Lemma poll_reads_hash_witness :
  exists w',
    poll demo_env demo_world = (Return true, w') /\
    last_seen_revision (self w') = Some "abc123" /\
    last_seen_revision (self_row w') = Some "abc123".
Proof.
  apply (poll_reads_hash demo_env demo_world "abc123" "refs/heads/main");
    [reflexivity|reflexivity|cbn; repeat split; discriminate|discriminate].
Defined.

(** ** Key generation *)

Lemma generate_key_run env w :
  returncode (subprocess env (clock w) gen_key_cmd) = 0 ->
  generate_key env RepreproDriver w =
    (Return (key_of_line <$>
              List.find (fun l => Py.startswith l "gpg: key ")
                (Py.split "010" (stdout (subprocess env (clock w) gen_key_cmd)))),
     record (ECmd gen_key_cmd) (tick (record EGenerateKey w))).
Proof.
  intros H. unfold generate_key. unfold bind at 1. cbn [modify].
  unfold bind. rewrite run_cmd_plain. simpl_world. fold gen_key_cmd. rewrite H.
  reflexivity.
Qed.

Lemma find_app_skip {A} (f : A -> bool) pre x post :
  Forall (fun y => f y = false) pre -> f x = true ->
  List.find f (pre ++ x :: post) = Some x.
Proof.
  induction 1 as [|y pre Hy _ IH]; intros Hx; cbn; [rewrite Hx; reflexivity|].
  rewrite Hy. auto.
Qed.

Lemma prefix_app_true p r : String.prefix p (p +:+ r) = true.
Proof.
  induction p as [|c p IH]; [destruct r; reflexivity|].
  change (String c p +:+ r) with (String c (p +:+ r)). cbn [String.prefix].
  destruct (ascii_dec c c); [exact IH|congruence].
Qed.

Lemma split_keeps_lacks c sep s : lacks c s -> Forall (lacks c) (Py.split sep s).
Proof.
  induction s as [|a r IH]; intros H.
  - repeat constructor.
  - destruct H as [Ha Hr]. specialize (IH Hr). rewrite split_cons.
    destruct (Ascii.eqb a sep).
    + constructor; [exact I|exact IH].
    + destruct (Py.split sep r) as [|h t].
      * repeat constructor. exact Ha.
      * inversion IH; subst. constructor; [split; assumption|assumption].
Qed.

(** X11: when gpg succeeds and the first line of its output that begins
    with [gpg: key ] goes on with [k], a space and more, [k] without a
    space, then [generate_key] of the RepreproDriver returns [k]. *)
Theorem generate_key_parses env w pre k rest post :
  let o := subprocess env (clock w) gen_key_cmd in
  returncode o = 0 ->
  Py.split "010" (stdout o) = pre ++ ("gpg: key " +:+ k +:+ " " +:+ rest) :: post ->
  Forall (fun l => Py.startswith l "gpg: key " = false) pre ->
  lacks " " k ->
  exists w', generate_key env RepreproDriver w = (Return (Some k), w').
Proof.
  intros o Hok Hlines Hpre Hk. eexists. rewrite (generate_key_run env w Hok).
  fold o. rewrite Hlines, (find_app_skip _ _ _ _ Hpre)
    by apply (prefix_app_true "gpg: key ").
  cbn [fmap option_fmap option_map]. unfold key_of_line.
  change ("gpg: key " +:+ k +:+ " " +:+ rest)
    with ("gpg:" +:+ String " " ("key" +:+ String " " (k +:+ String " " rest))).
  rewrite (split_app_sep " " "gpg:") by (cbn; repeat split; discriminate).
  rewrite (split_app_sep " " "key") by (cbn; repeat split; discriminate).
  rewrite (split_app_sep _ _ _ Hk). reflexivity.
Qed.

(** X11, for the output [gpg_output]: the line about the keyring is
    passed over. *)
Lemma generate_key_parses_witness :
  exists w', generate_key gpg_env RepreproDriver demo_world = (Return (Some "ABCD1234"), w').
Proof.
  apply (generate_key_parses gpg_env demo_world
           ["gpg: keyring `/srv/repos/alice/repo/.gnupg/secring.gpg' created"]
           "ABCD1234" "marked as ultimately trusted" [""]).
  - reflexivity.
  - reflexivity.
  - repeat constructor.
  - cbn. repeat split; discriminate.
Defined.

(** X12: [generate_key] of the RepreproDriver raises exactly when gpg
    fails; it returns [None] exactly when gpg succeeds and no line of
    its output begins with [gpg: key ]; a key id it returns comes from
    such a line and contains neither a space nor a newline. *)
Theorem generate_key_result env w :
  let o := subprocess env (clock w) gen_key_cmd in
  let lines := Py.split "010" (stdout o) in
  match generate_key env RepreproDriver w with
  | (Return None, _) =>
      returncode o = 0 /\ Forall (fun l => Py.startswith l "gpg: key " = false) lines
  | (Return (Some k), _) =>
      returncode o = 0 /\ lacks " " k /\ lacks "010" k /\
      exists l, In l lines /\ Py.startswith l "gpg: key " = true
  | (Raise e, _) => returncode o <> 0 /\ e = CalledProcessError gen_key_cmd
  end.
Proof.
  intros o lines.
  destruct (Z.eq_dec (returncode o) 0) as [Hok|Hne].
  - rewrite (generate_key_run env w Hok). fold o lines.
    destruct (List.find _ lines) as [l|] eqn:Hf; cbn [fmap option_fmap option_map].
    + apply find_some in Hf as [Hin Hl]. split; [exact Hok|].
      destruct (prefix_app _ _ Hl) as [r Hr].
      assert (Hnl : lacks "010" l).
      { pose proof (split_lacks "010" (stdout o)) as H. rewrite Forall_forall in H.
        apply H, list_elem_of_In, Hin. }
      assert (Hk : In (key_of_line l) (Py.split " " l)).
      { subst l. unfold key_of_line.
        change ("gpg: key " +:+ r) with ("gpg:" +:+ String " " ("key" +:+ String " " r)).
        rewrite (split_app_sep " " "gpg:") by (cbn; repeat split; discriminate).
        rewrite (split_app_sep " " "key") by (cbn; repeat split; discriminate).
        pose proof (split_nonempty " " r) as Hne.
        destruct (Py.split " " r) as [|k t]; [congruence|]. cbn. auto. }
      split_and!.
      * pose proof (split_lacks " " l) as H. rewrite Forall_forall in H.
        apply H, list_elem_of_In, Hk.
      * pose proof (split_keeps_lacks "010" " " l Hnl) as H. rewrite Forall_forall in H.
        apply H, list_elem_of_In, Hk.
      * exists l. auto.
    + split; [exact Hok|]. rewrite Forall_forall. intros l Hl.
      apply list_elem_of_In in Hl.
      pose proof (find_none _ _ Hf l Hl) as H. exact H.
  - unfold generate_key. unfold bind at 1. cbn [modify]. unfold bind.
    rewrite run_cmd_plain. simpl_world. fold gen_key_cmd o.
    destruct (Z.eqb_spec (returncode o) 0); [contradiction|]. split; [exact Hne|reflexivity].
Qed.

(** X13: when a repository without key is exported and gpg fails to make
    one, [export] raises the error of gpg: the repository and its row,
    the file system, the pool and the indices are as before, and the
    repository tool was not run. *)
Theorem export_key_generation_fails env w :
  BUILDSVC_REPODRIVER env = RepreproDriver ->
  Py.truthy (key_id (repository w)) = false ->
  returncode (subprocess env (clock w) gen_key_cmd) <> 0 ->
  exists w',
    export env w = (Raise (CalledProcessError gen_key_cmd), w') /\
    repository w' = repository w /\ repository_row w' = repository_row w /\
    fs w' = fs w /\ pool w' = pool w /\ index w' = index w /\
    trace w' = trace w ++ [EGenerateKey; ECmd gen_key_cmd].
Proof.
  intros Hd Hk Hrc. eexists. split.
  - unfold export, ensure_key. unfold bind at 1. unfold bind at 1. cbn [gets].
    rewrite Hk. cbn [negb when]. unfold bind at 1. unfold get_repo_driver. rewrite Hd.
    unfold generate_key. unfold bind at 1. cbn [modify]. unfold bind at 1.
    rewrite run_cmd_plain. simpl_world. fold gen_key_cmd.
    destruct (Z.eqb_spec (returncode (subprocess env (clock w) gen_key_cmd)) 0);
      [contradiction|reflexivity].
  - simpl_world. split_and!; try reflexivity. rewrite <- app_assoc. reflexivity.
Qed.

(** X13, at [demo_world] with an outside where commands fail. *)
Lemma export_key_generation_fails_witness :
  exists w',
    export failing_env demo_world = (Raise (CalledProcessError gen_key_cmd), w') /\
    repository w' = repository demo_world /\
    repository_row w' = repository_row demo_world /\
    fs w' = fs demo_world /\ pool w' = pool demo_world /\ index w' = index demo_world /\
    trace w' = trace demo_world ++ [EGenerateKey; ECmd gen_key_cmd].
Proof.
  apply (export_key_generation_fails failing_env demo_world);
    [reflexivity|reflexivity|discriminate].
Defined.

(** ** Outcomes of export and process_changes *)

(** X14: [export] never changes the pool; when it returns, the indices
    list the pool and the export command of the repository tool was
    the last thing run; when it raises, the indices are as before. *)
Theorem export_outcome env w :
  match export env w with
  | (Return _, w') =>
      pool w' = pool w /\ index w' = pool w /\
      exists evs, trace w' = (trace w ++ evs) ++ [export_cmd env (repository w)]
  | (Raise _, w') =>
      pool w' = pool w /\ index w' = index w /\
      exists evs, trace w' = trace w ++ evs
  end.
Proof.
  pose proof (export_spec env w) as H. unfold wp in H.
  destruct (export env w) as [[[]|e] w'].
  - destruct H as (_ & Hp & Hi & _ & Ht). auto.
  - destruct H as (_ & Hp & Hi & _ & Ht). auto.
Qed.



(** ** ensure_dir *)


(** ** Stripped manifests *)

Lemma filter_filter_same {A} (f : A -> bool) l :
  List.filter f (List.filter f l) = List.filter f l.
Proof.
  induction l as [|x l IH]; [reflexivity|]. cbn.
  destruct (f x) eqn:E; cbn; rewrite ?E, IH; reflexivity.
Qed.

Lemma filter_id_iff {A} (f : A -> bool) l :
  List.filter f l = l <-> Forall (fun x => f x = true) l.
Proof.
  induction l as [|x l IH]; [split; [constructor|reflexivity]|]. cbn.
  destruct (f x) eqn:E.
  - split.
    + intros H. injection H as H. constructor; [exact E|by apply IH].
    + intros H. inversion H; subst. f_equal. by apply IH.
  - split.
    + intros H. exfalso.
      assert (Hl : (length (List.filter f l) <= length l)%nat) by apply filter_length_le.
      rewrite H in Hl. cbn in Hl. lia.
    + intros H. inversion H; subst. congruence.
Qed.

Lemma Changes_eq (c1 c2 : Deb822.Changes) :
  Deb822.fields c1 = Deb822.fields c2 ->
  (forall k, Deb822.sections c1 !! k = Deb822.sections c2 !! k) ->
  c1 = c2.
Proof.
  destruct c1, c2. cbn. intros -> H. f_equal. by apply map_eq.
Qed.

(** X17: stripping the [.ddeb] entries of a manifest that was stripped
    changes nothing. *)
Theorem strip_ddebs_idempotent c :
  strip_ddebs (strip_ddebs c) = strip_ddebs c.
Proof.
  apply Changes_eq; [by rewrite !strip_ddebs_fields|].
  intros k. rewrite !strip_ddebs_lookup. case_bool_decide; [|reflexivity].
  destruct (Deb822.sections c !! k) as [l|]; [|reflexivity]. cbn.
  by rewrite filter_filter_same.
Qed.

(** X18: [remove_ddebs_from_changes] rewrites a manifest unchanged
    exactly when none of its [Checksums-Sha1], [Checksums-Sha256] and
    [Files] sections lists a name that ends in [.ddeb]. *)
Theorem strip_ddebs_unchanged_iff c :
  strip_ddebs c = c <->
  forall sec l, sec ∈ ddeb_sections -> Deb822.sections c !! sec = Some l ->
    Forall (fun f => Py.endswith (Deb822.name f) ".ddeb" = false) l.
Proof.
  split.
  - intros E sec l Hsec Hl.
    assert (H : Deb822.sections (strip_ddebs c) !! sec = Some l) by (rewrite E; exact Hl).
    rewrite strip_ddebs_lookup, bool_decide_true, Hl in H by exact Hsec.
    cbn in H. injection H as H. apply filter_id_iff in H.
    eapply Forall_impl; [exact H|]. intros f Hf. unfold not_ddeb in Hf.
    by apply negb_true_iff in Hf.
  - intros H. apply Changes_eq; [apply strip_ddebs_fields|].
    intros k. rewrite strip_ddebs_lookup. case_bool_decide as Hk; [|reflexivity].
    destruct (Deb822.sections c !! k) as [l|] eqn:Hl; [|reflexivity]. cbn. f_equal.
    apply filter_id_iff. eapply Forall_impl; [exact (H k l Hk Hl)|].
    intros f Hf. unfold not_ddeb. by rewrite Hf.
Qed.

(** ** The handlers of a logger *)

Lemma remove_handlers_from fuel : forall i hs,
  (length hs <= i + fuel)%nat ->
  remove_handlers fuel i hs = take i hs ++ odd_positions (drop i hs).
Proof.
  induction fuel as [|fuel IH]; intros i hs Hf.
  - cbn [remove_handlers]. rewrite drop_ge, take_ge by lia. by rewrite app_nil_r.
  - cbn [remove_handlers]. destruct (hs !! i) as [x|] eqn:Hx.
    + pose proof (lookup_lt_Some _ _ _ Hx) as Hlt.
      assert (Hd : delete i hs = take i hs ++ drop (S i) hs) by apply delete_take_drop.
      assert (Hl : length (delete i hs) = (length hs - 1)%nat).
      { rewrite length_delete by eauto. reflexivity. }
      rewrite IH by lia.
      rewrite (drop_S _ _ _ Hx). rewrite Hd.
      assert (Hti : length (take i hs) = i) by (rewrite length_take; lia).
      destruct (drop (S i) hs) as [|y r] eqn:Hr.
      * rewrite app_nil_r. rewrite take_ge, drop_ge by (rewrite Hti; lia).
        reflexivity.
      * rewrite take_app_ge, drop_app_ge by (rewrite Hti; lia).
        rewrite Hti. replace (S i - i)%nat with 1%nat by lia.
        cbn [take drop odd_positions]. rewrite <- app_assoc. reflexivity.
    + apply lookup_ge_None in Hx. rewrite drop_ge, take_ge by lia. by rewrite app_nil_r.
Qed.

Lemma odd_positions_length {A} (l : list A) :
  length (odd_positions l) = (length l / 2)%nat.
Proof.
  enough (H : length (odd_positions l) = (length l / 2)%nat /\
              forall x, length (odd_positions (x :: l)) = (S (length l) / 2)%nat)
    by apply H.
  induction l as [|y l [IH1 IH2]].
  - split; [reflexivity|intros; reflexivity].
  - split; [apply IH2|]. intros x. cbn [odd_positions length]. rewrite IH1.
    change (S (S (length l))) with (1 * 2 + length l)%nat.
    rewrite Nat.div_add_l by lia. lia.
Qed.

(** X19: the loop of the [logger] property that removes the handlers of
    a logger while it iterates over them leaves every second handler:
    of [n] handlers, [n / 2] stay, and none stays only when there was
    at most one. *)
Theorem remove_handlers_keeps_every_other (hs : list string) :
  let left := remove_handlers (length hs) 0 hs in
  left = odd_positions hs /\
  length left = (length hs / 2)%nat /\
  (left = [] <-> (length hs <= 1)%nat).
Proof.
  intros left.
  assert (E : left = odd_positions hs).
  { unfold left. rewrite remove_handlers_from by lia. reflexivity. }
  split_and!; [exact E|rewrite E; apply odd_positions_length|].
  rewrite E. destruct hs as [|x [|y r]]; cbn; split; intros; try reflexivity; try lia.
  discriminate.
Qed.

(** X20: when the path of the build log is the one last used, the
    [logger] property returns the logger it has: the record, the
    handlers of the loggers and the trace are as before, and nothing
    changes in the file system but directories that were missing. *)
Theorem logger_cached env w :
  let p := buildlog_path env (repository w) (self w) (br w) in
  _saved_logpath (br w) = Some p ->
  match logger env w with
  | (Return lg, w') =>
      lg = _logger (br w) /\ br w' = br w /\ loggers w' = loggers w /\
      trace w' = trace w /\ clock w' = clock w /\ adds_dirs (fs w) (fs w')
  | (Raise _, _) => True
  end.
Proof.
  intros p Hs. change (wp (logger env)
    (fun lg w' => lg = _logger (br w) /\ br w' = br w /\ loggers w' = loggers w /\
       trace w' = trace w /\ clock w' = clock w /\ adds_dirs (fs w) (fs w'))
    (fun _ _ => True) w).
  unfold logger. wp_prim. apply wp_buildlog. fold p. intros m Hm.
  do 3 wp_prim. rewrite Hs. rewrite bool_decide_true by reflexivity.
  wp_prim; [discriminate|]. wp_prim. split_and!; try reflexivity. exact Hm.
Qed.

(** X20, at [demo_world] after a first access of the logger. *)
Lemma logger_cached_witness :
  match logger demo_env demo_logging with
  | (Return lg, w') =>
      lg = _logger (br demo_logging) /\ br w' = br demo_logging /\
      loggers w' = loggers demo_logging /\ trace w' = trace demo_logging /\
      clock w' = clock demo_logging /\ adds_dirs (fs demo_logging) (fs w')
  | (Raise _, _) => True
  end.
Proof. apply (logger_cached demo_env demo_logging). vm_compute. reflexivity. Defined.

(** X21: when the path of the build log is not the one last used and the
    logger of this name has the handlers [hs], an access of the
    [logger] property that returns leaves the logger with every second
    handler of [hs] and, after them, the handler of the new path. *)
Theorem logger_keeps_stale_handlers env w hs :
  let p := buildlog_path env (repository w) (self w) (br w) in
  let n := logger_name_of (self w) (br w) in
  _saved_logpath (br w) <> Some p ->
  loggers w !! n = Some hs ->
  match logger env w with
  | (Return lg, w') =>
      lg = Some n /\ loggers w' !! n = Some (odd_positions hs ++ [p]) /\
      _saved_logpath (br w') = Some p
  | (Raise _, _) => True
  end.
Proof.
  intros p n Hs Hh. change (wp (logger env)
    (fun lg w' => lg = Some n /\ loggers w' !! n = Some (odd_positions hs ++ [p]) /\
                  _saved_logpath (br w') = Some p)
    (fun _ _ => True) w).
  unfold logger. wp_prim. apply wp_buildlog. fold p. intros m Hm.
  do 3 wp_prim. rewrite bool_decide_false by congruence.
  wp_prim; [|discriminate]. clear H.
  assert (Hend : forall w1,
    self w1 = self w -> br w1 = br w -> loggers w1 = loggers w ->
    wp (n0 <- logger_name;;
        modify (set_loggers (fun m0 =>
          let hs0 := default [] (m0 !! n0) in
          <[n0:=remove_handlers (length hs0) 0 hs0]> m0));;
        open_append p;;
        modify (set_loggers (fun m0 => <[n0:=default [] (m0 !! n0) ++ [p]]> m0));;
        modify (set_br (set_logging (Some n0) (Some p))))
      (fun _ => wp (gets (fun w2 => _logger (br w2)))
         (fun lg w' => lg = Some n /\ loggers w' !! n = Some (odd_positions hs ++ [p]) /\
                       _saved_logpath (br w') = Some p) (fun _ _ => True))
      (fun _ _ => True) w1).
  { intros w1 H1 H2 H3. do 4 wp_prim. rewrite H1, H2.
    fold (logger_name_of (self w) (br w)). fold n.
    repeat wp_prim; try exact I.
    all: cbn [_logger _saved_logpath set_logging]; rewrite !lookup_insert_eq; cbn [default].
    all: rewrite H3, Hh; cbn [default]; rewrite remove_handlers_from by lia.
    all: cbn [take drop app]; split_and!; reflexivity. }
  wp_prim.
  apply (wp_mono _ (fun _ w1 => self w1 = self w /\ br w1 = br w /\ loggers w1 = loggers w)
           _ (fun _ _ => True));
    [intros [] w1 (? & ? & ?); apply Hend; assumption|auto|].
  destruct (_saved_logpath (br w)) as [old|] eqn:Hold; [|wp_prim; auto].
  do 3 wp_prim. wp_prim; [|auto].
  wp_prim. apply wp_buildlog. simpl_world. intros m' Hm'.
  repeat wp_prim; auto.
Qed.

(** X21, at [demo_world] with two handlers left on the logger: the
    second one stays. *)
Lemma logger_keeps_stale_handlers_witness :
  match logger demo_env stale_world with
  | (Return lg, w') =>
      lg = Some (logger_name_of (self stale_world) (br stale_world)) /\
      loggers w' !! logger_name_of (self stale_world) (br stale_world)
        = Some (odd_positions ["/old/a.log"; "/old/b.log"]
                  ++ [buildlog_path demo_env (repository stale_world)
                        (self stale_world) (br stale_world)]) /\
      _saved_logpath (br w')
        = Some (buildlog_path demo_env (repository stale_world)
                  (self stale_world) (br stale_world))
  | (Raise _, _) => True
  end.
Proof.
  apply (logger_keeps_stale_handlers demo_env stale_world ["/old/a.log"; "/old/b.log"]).
  - cbn. discriminate.
  - vm_compute. reflexivity.
Defined.

(** ** The commands of checkout *)

Lemma for_each_emit_traced env lg l evs s : forall w,
  traced evs s w ->
  exists w', for_each l (emit env lg) w = (Return tt, w') /\ traced evs s w'.
Proof.
  induction l as [|x l IH]; intros w Hw; [exists w; auto|].
  cbn [for_each]. unfold bind at 1. destruct lg as [n|]; cbn [emit modify ret].
  - apply IH. destruct Hw. split; simpl_world; assumption.
  - apply IH, Hw.
Qed.

Lemma wp_run_cmd_traced env cmd cwd lg evs s Q E w :
  traced evs s w ->
  (forall out w', traced (evs ++ [ECmd cmd]) s w' -> Q out w') ->
  (forall w', traced (evs ++ [ECmd cmd]) s w' -> E (CalledProcessError cmd) w') ->
  wp (run_cmd env cmd cwd lg) Q E w.
Proof.
  intros [Ht Hs] HQ HE. unfold run_cmd. do 4 wp_prim.
  assert (H1 : forall w1, traced (evs ++ [ECmd cmd]) s w1 ->
    wp (for_each (logged (subprocess env (clock w) cmd)) (emit env lg);;
        (if returncode (subprocess env (clock w) cmd) =? 0
         then ret (stdout (subprocess env (clock w) cmd))
         else raise (CalledProcessError cmd))) Q E w1).
  { intros w1 Hw1.
    destruct (for_each_emit_traced env lg (logged (subprocess env (clock w) cmd)) _ _ w1 Hw1)
      as (w2 & E2 & H2).
    unfold wp, bind. rewrite E2. destruct (_ =? 0); cbn [ret raise]; auto. }
  destruct cwd as [d|]; do 2 wp_prim; apply H1; split; simpl_world; congruence.
Qed.

Lemma wp_rmtree_traced d evs s Q E w :
  traced evs s w ->
  (forall w', traced (evs ++ [ERmtree d]) s w' -> Q tt w') -> wp (rmtree d) Q E w.
Proof.
  intros [Ht Hs] HQ. unfold rmtree. apply wp_modify, HQ.
  split; simpl_world; congruence.
Qed.

(** X22: a [checkout] that returns hands out the directory that
    [mkdtemp] made and its [build] subdirectory, and has run the clone,
    the hard reset exactly when a [sha] was given, and the rev-parse,
    in this order.  A [checkout] that raises raises the error of the
    last command it ran, and the last thing it did was to remove the
    directory. *)
Theorem checkout_commands env sha lg w :
  let d := mkdtemp_name env (clock w) in
  let clone := ECmd (clone_cmd (self w)) in
  let reset := ECmd (reset_cmd sha) in
  let rev_parse := ECmd rev_parse_cmd in
  match checkout env sha lg w with
  | (Return c, w') =>
      c.1.1 = d /\ c.1.2 = OsPath.join d "build" /\
      trace w' = trace w ++ [EMkdtemp d; clone]
                   ++ (if Py.truthy sha then [reset] else []) ++ [rev_parse]
  | (Raise e, w') =>
      exists cmd evs,
        e = CalledProcessError cmd /\
        trace w' = trace w ++ [EMkdtemp d] ++ evs ++ [ECmd cmd; ERmtree d]
  end.
Proof.
  intros d clone reset rev_parse.
  set (T := trace w ++ [EMkdtemp d]).
  set (Q := fun (c : string * string * string) (w' : World) =>
    c.1.1 = d /\ c.1.2 = OsPath.join d "build" /\
    trace w' = trace w ++ [EMkdtemp d; clone]
                 ++ (if Py.truthy sha then [reset] else []) ++ [rev_parse]).
  set (E := fun (e : exn) (w' : World) =>
    exists cmd evs, e = CalledProcessError cmd /\
      trace w' = trace w ++ [EMkdtemp d] ++ evs ++ [ECmd cmd; ERmtree d]).
  change (wp (checkout env sha lg) Q E w).
  unfold checkout. repeat wp_prim. fold d.
  match goal with |- wp _ _ _ ?w0 => assert (H0 : traced T (self w) w0) end.
  { split; reflexivity. }
  fold (clone_cmd (self w)).
  apply (wp_run_cmd_traced _ _ _ _ T (self w)); [exact H0| |].
  2:{ intros w1 H1. wp_prim. eapply wp_rmtree_traced; [exact H1|].
      intros w2 [H2 _]. wp_prim. exists (clone_cmd (self w)), [].
      split; [reflexivity|]. rewrite H2. unfold T. rewrite <- !app_assoc. reflexivity. }
  intros _ w1 H1. wp_prim.
  set (T2 := T ++ [clone] ++ (if Py.truthy sha then [reset] else [])).
  assert (Hrest : forall w2, traced T2 (self w) w2 ->
    wp (stdout <- run_cmd env ["git"; "rev-parse"; "HEAD"] (Some (OsPath.join d "build")) lg;;
        ret (d, OsPath.join d "build", Py.strip stdout))
       Q (fun e => wp (rmtree d;; raise e) Q E) w2).
  { intros w2 H2. wp_prim. fold rev_parse_cmd.
    apply (wp_run_cmd_traced _ _ _ _ T2 (self w)); [exact H2| |].
    - intros out w3 [H3 _]. wp_prim. split_and!; [reflexivity|reflexivity|].
      rewrite H3. unfold T2, T. rewrite <- !app_assoc. reflexivity.
    - intros w3 H3. wp_prim. eapply wp_rmtree_traced; [exact H3|].
      intros w4 [H4 _]. wp_prim.
      exists rev_parse_cmd, ([clone] ++ (if Py.truthy sha then [reset] else [])).
      split; [reflexivity|]. rewrite H4. unfold T2, T. rewrite <- !app_assoc. reflexivity. }
  destruct (Py.truthy sha) eqn:Hsha.
  - wp_prim; [|discriminate]. clear H. wp_prim. fold (reset_cmd sha).
    apply (wp_run_cmd_traced _ _ _ _ (T ++ [clone]) (self w)); [exact H1| |].
    + intros _ w2 H2. wp_prim. apply Hrest. unfold T2. rewrite app_assoc. exact H2.
    + intros w2 H2. wp_prim. eapply wp_rmtree_traced; [exact H2|].
      intros w3 [H3 _]. wp_prim. exists (reset_cmd sha), [clone].
      split; [reflexivity|]. rewrite H3. unfold T. rewrite <- !app_assoc. reflexivity.
  - wp_prim; [discriminate|]. apply Hrest. unfold T2. rewrite app_nil_r. exact H1.
Qed.

(** ** The record of a build attempt *)











Lemma wp_always {A} (m : M A) (Q : A -> World -> Prop) (E : exn -> World -> Prop) w :
  (forall a w', Q a w') -> (forall e w', E e w') -> wp m Q E w.
Proof. unfold wp. intros HQ HE. destruct (m w) as [[a|e] w']; auto. Qed.

(** X24: when [build_real] returns, the indices of the repository list
    all that is in the pool. *)
Theorem build_real_success_exports env w :
  match build_real env w with
  | (Return _, w') => index w' = pool w'
  | (Raise _, _) => True
  end.
Proof.
  change (wp (build_real env) (fun _ w' => index w' = pool w') (fun _ _ => True) w).
  unfold build_real. wp_prim. apply wp_always; [|auto]. intros d wa.
  wp_prim. unfold build_body. wp_prim.
  apply wp_always; [|intros; repeat wp_prim; exact I]. intros [] wb.
  wp_prim. apply wp_always; [|intros; repeat wp_prim; exact I]. intros names wc.
  wp_prim. apply wp_always; [|intros; repeat wp_prim; exact I]. intros [] wd.
  unfold Series_export.
  eapply wp_mono; [| |apply export_spec]; cbn beta.
  - intros [] w' (_ & Hp & Hi & _). repeat wp_prim. congruence.
  - intros e w' _. repeat wp_prim. exact I.
Qed.

(** ** Access to a repository *)

(** X25: a user can modify a repository exactly when the user is active
    and is its owner, or a superuser, or a member of one of the groups
    in its [extra_admins]; an inactive user never can. *)
Theorem user_can_modify_iff db r u :
  user_can_modify db r u = true <->
  is_active u = true /\
  (user_id u = repository_user r \/ is_superuser u = true \/
   exists g, In (repository_id r, g) (repository_extra_admins db) /\
             In (user_id u, g) (user_groups db)).
Proof.
  unfold user_can_modify.
  destruct (is_active u); cbn [negb]; [|split; [discriminate|intros [? _]; discriminate]].
  destruct (Nat.eqb_spec (user_id u) (repository_user r)) as [E|Hne]; cbn [orb];
    [split; auto|].
  destruct (is_superuser u); [split; auto|].
  assert (Hg : forall g, In g (extra_admins_with db r u) <->
             In (repository_id r, g) (repository_extra_admins db) /\
             In (user_id u, g) (user_groups db)).
  { intros g. unfold extra_admins_with, extra_admins_all.
    rewrite filter_In, existsb_exists, <- list_elem_of_In, list_elem_of_fmap.
    split.
    - intros [((r', g') & -> & Hin) ((u', g'') & Hu & Heq)].
      apply list_elem_of_In, filter_In in Hin as [Hin Hr]. cbn in *.
      apply Nat.eqb_eq in Hr. subst r'.
      apply andb_true_iff in Heq as [H1 H2].
      apply Nat.eqb_eq in H1, H2. subst. auto.
    - intros [Hr Hu]. split.
      + exists (repository_id r, g). split; [reflexivity|].
        apply list_elem_of_In, filter_In. split; [exact Hr|]. cbn. apply Nat.eqb_refl.
      + exists (user_id u, g). split; [exact Hu|]. cbn. by rewrite !Nat.eqb_refl. }
  destruct (extra_admins_with db r u) as [|g gs] eqn:El; cbn [length Nat.eqb negb].
  - split; [discriminate|]. intros [_ [?|[?|(g & Hg')]]]; try congruence.
    apply Hg in Hg'. destruct Hg'.
  - split; [|reflexivity]. intros _. split; [reflexivity|]. right. right.
    exists g. apply Hg. left. reflexivity.
Qed.

Lemma In_owned_or_administered db u r r' :
  In r' (owned_or_administered db u r) <->
  r' = r /\
  (repository_user r = user_id u \/
   exists g, In g (extra_admins_all db r) /\ In g (groups_all db u)).
Proof.
  unfold owned_or_administered.
  rewrite <- list_elem_of_In, list_elem_of_fmap. split.
  - intros (j & -> & Hj). split; [reflexivity|].
    apply list_elem_of_In, filter_In in Hj as [Hj Hc].
    apply orb_true_iff in Hc as [Hc|Hc]; [left; by apply Nat.eqb_eq|].
    destruct j as [g|]; [|discriminate]. right. exists g.
    apply existsb_exists in Hc as (g' & Hg' & E). apply Nat.eqb_eq in E. subst g'.
    split; [|exact Hg'].
    destruct (extra_admins_all db r) as [|g0 gs]; [destruct Hj as [?|[]]; discriminate|].
    apply list_elem_of_In, list_elem_of_fmap in Hj as (g1 & E & Hg1).
    injection E as ->. by apply list_elem_of_In.
  - intros [-> [Ho|(g & Hg & Hu)]].
    + destruct (extra_admins_all db r) as [|g0 gs].
      * exists None. split; [reflexivity|]. apply list_elem_of_In, filter_In.
        split; [left; reflexivity|]. apply orb_true_iff. left. by apply Nat.eqb_eq.
      * exists (Some g0). split; [reflexivity|]. apply list_elem_of_In, filter_In.
        split; [left; reflexivity|]. apply orb_true_iff. left. by apply Nat.eqb_eq.
    + exists (Some g). split; [reflexivity|]. apply list_elem_of_In, filter_In. split.
      * destruct (extra_admins_all db r) as [|g0 gs]; [destruct Hg|].
        apply list_elem_of_In, list_elem_of_fmap. exists g. split; [reflexivity|].
        by apply list_elem_of_In.
      * apply orb_true_iff. right. apply existsb_exists. exists g.
        split; [exact Hu|apply Nat.eqb_refl].
Qed.

Lemma In_groups_all db u g : In g (groups_all db u) <-> In (user_id u, g) (user_groups db).
Proof.
  unfold groups_all. rewrite <- list_elem_of_In, list_elem_of_fmap. split.
  - intros ((u', g') & -> & H). apply list_elem_of_In, filter_In in H as [H E].
    cbn in *. apply Nat.eqb_eq in E. by subst.
  - intros H. exists (user_id u, g). split; [reflexivity|].
    apply list_elem_of_In, filter_In. split; [exact H|]. cbn. apply Nat.eqb_refl.
Qed.

Lemma In_extra_admins_all db r g :
  In g (extra_admins_all db r) <-> In (repository_id r, g) (repository_extra_admins db).
Proof.
  unfold extra_admins_all. rewrite <- list_elem_of_In, list_elem_of_fmap. split.
  - intros ((r', g') & -> & H). apply list_elem_of_In, filter_In in H as [H E].
    cbn in *. apply Nat.eqb_eq in E. by subst.
  - intros H. exists (repository_id r, g). split; [reflexivity|].
    apply list_elem_of_In, filter_In. split; [exact H|]. cbn. apply Nat.eqb_refl.
Qed.

(** X26: [lookup_by_user] and [user_can_modify] agree: the repositories
    that [lookup_by_user] lists for a user are those of the table that
    the user can modify. *)
Theorem lookup_by_user_iff_can_modify db u r :
  In r (lookup_by_user db u) <->
  In r (repositories db) /\ user_can_modify db r u = true.
Proof.
  unfold lookup_by_user, user_can_modify.
  destruct (is_active u); cbn [negb]; [|split; [intros []|intros [_ ?]; discriminate]].
  destruct (is_superuser u).
  { rewrite orb_true_r. tauto. }
  rewrite orb_false_r, in_flat_map.
  setoid_rewrite In_owned_or_administered.
  assert (Hg : (exists g, In g (extra_admins_all db r) /\ In g (groups_all db u)) <->
               negb (Nat.eqb (length (extra_admins_with db r u)) 0) = true).
  { unfold extra_admins_with. split.
    - intros (g & Hg & Hu).
      assert (Hin : In g (List.filter
                (fun g => existsb (fun ug => Nat.eqb ug.1 (user_id u) && Nat.eqb ug.2 g)
                            (user_groups db)) (extra_admins_all db r))).
      { apply filter_In. split; [exact Hg|]. apply existsb_exists.
        exists (user_id u, g). split; [by apply In_groups_all|]. cbn.
        by rewrite !Nat.eqb_refl. }
      destruct (List.filter _ _); [destruct Hin|reflexivity].
    - destruct (List.filter _ _) as [|g gs] eqn:E; [discriminate|]. intros _.
      assert (Hin : In g (g :: gs)) by (left; reflexivity).
      rewrite <- E in Hin. apply filter_In in Hin as [Hg Hu].
      exists g. split; [exact Hg|]. apply In_groups_all.
      apply existsb_exists in Hu as ((u', g') & Hin & Heq). cbn in Heq.
      apply andb_true_iff in Heq as [H1 H2]. apply Nat.eqb_eq in H1, H2. by subst. }
  split.
  - intros (r0 & Hr0 & -> & H). split; [exact Hr0|].
    destruct (Nat.eqb_spec (user_id u) (repository_user r0)) as [|Hne]; [reflexivity|].
    destruct H as [H|H]; [congruence|]. apply Hg in H. rewrite H. reflexivity.
  - intros [Hr H]. exists r. split; [exact Hr|]. split; [reflexivity|].
    destruct (Nat.eqb_spec (user_id u) (repository_user r)) as [E|Hne]; [left; auto|].
    right. apply Hg. destruct (negb _); [reflexivity|discriminate].
Qed.

(** ** Repository.first_series *)

(** X27: [first_series] returns the series of the repository when it
    has exactly one, and leaves the table as it is; it adds a series of
    the default name when the repository has none; it raises, changing
    nothing, when the repository has several.  A second call returns
    the same series and adds none. *)
Theorem first_series_get_or_create dn r table :
  let own := List.filter (fun s => Nat.eqb (series_repository s) (repository_id r)) table in
  match first_series dn r table with
  | (Found s, table') =>
      series_repository s = repository_id r /\
      (own = [] /\ table' = table ++ [s] /\ series_row_name s = dn \/
       own = [s] /\ table' = table) /\
      first_series dn r table' = (Found s, table')
  | (MultipleObjectsReturned, table') =>
      table' = table /\ (2 <= length own)%nat
  end.
Proof.
  intros own. unfold first_series. fold own.
  destruct own as [|s [|s' rest]] eqn:E.
  - cbn [series_repository]. split_and!; [reflexivity|left; auto|].
    rewrite List.filter_app. fold own. rewrite E. cbn [List.filter series_repository app].
    rewrite Nat.eqb_refl. reflexivity.
  - assert (Hs : In s own) by (rewrite E; left; reflexivity).
    apply filter_In in Hs as [_ Hs]. apply Nat.eqb_eq in Hs.
    split_and!; [exact Hs|right; auto|]. fold own. rewrite E. reflexivity.
  - split; [reflexivity|]. cbn. lia.
Qed.

(** ** The directories of a repository *)

Lemma append_nil_r (s : string) : s +:+ "" = s.
Proof.
  induction s as [|a s IH]; [reflexivity|].
  change (String a s +:+ "") with (String a (s +:+ "")). by rewrite IH.
Qed.

Lemma append_assoc (a b c : string) : (a +:+ b) +:+ c = a +:+ (b +:+ c).
Proof.
  induction a as [|x a IH]; [reflexivity|].
  change ((String x a +:+ b) +:+ c) with (String x ((a +:+ b) +:+ c)).
  by rewrite IH.
Qed.

Lemma list_ascii_of_string_app a b :
  list_ascii_of_string (a +:+ b) = list_ascii_of_string a ++ list_ascii_of_string b.
Proof.
  induction a as [|x a IH]; [reflexivity|].
  change (String x a +:+ b) with (String x (a +:+ b)). cbn. by rewrite IH.
Qed.

Lemma app_inv_tail_string (a b t : string) : a +:+ t = b +:+ t -> a = b.
Proof.
  intros E. apply (f_equal list_ascii_of_string) in E.
  rewrite !list_ascii_of_string_app in E. apply app_inv_tail in E.
  apply (f_equal string_of_list_ascii) in E.
  by rewrite !string_of_list_ascii_of_string in E.
Qed.

Lemma component_relative c : component c -> Py.startswith c "/" = false.
Proof.
  intros [Hc Hcs]. rewrite <- (append_nil_r c).
  apply slashless_not_startswith; [by apply lacks_slashless|exact Hc].
Qed.

Lemma join_components base u n :
  base <> "" -> Py.endswith base "/" = false ->
  component u -> component n ->
  OsPath.join3 base u n = base +:+ "/" +:+ u +:+ "/" +:+ n.
Proof.
  intros Hb He Hu Hn. unfold OsPath.join3.
  rewrite (join_relative base u) by auto using component_relative.
  rewrite (join_relative _ n); [| | |by apply component_relative].
  - change (base +:+ "/" +:+ u) with (base +:+ ("/" +:+ u)).
    rewrite !append_assoc. reflexivity.
  - destruct base; [contradiction|discriminate].
  - destruct Hu as [Hu Hus].
    change (base +:+ "/" +:+ u) with (base +:+ ("/" +:+ u)).
    rewrite endswith_app by (discriminate || reflexivity).
    rewrite (endswith_app "/" u) by (assumption || reflexivity).
    apply slashless_not_endswith. by apply lacks_slashless.
Qed.

(** X28: for a user name and a repository name that are not empty and
    contain no slash, [basedir] is [<BASE_DIR>/<user>/<name>] and
    [outdir] is [<BASE_PUBLIC_DIR>/<user>/<name>]; they differ when
    the two settings differ. *)
Theorem repository_dirs_below_base env r :
  let base := BUILDSVC_REPOS_BASE_DIR env in
  let pub := BUILDSVC_REPOS_BASE_PUBLIC_DIR env in
  base <> "" -> Py.endswith base "/" = false ->
  pub <> "" -> Py.endswith pub "/" = false ->
  component (username r) -> component (repo_name r) ->
  basedir_path env r = base +:+ "/" +:+ username r +:+ "/" +:+ repo_name r /\
  outdir_path env r = pub +:+ "/" +:+ username r +:+ "/" +:+ repo_name r /\
  (base <> pub -> basedir_path env r <> outdir_path env r).
Proof.
  intros base pub Hb He Hp Hpe Hu Hn.
  unfold basedir_path, outdir_path. fold base pub.
  rewrite !join_components by assumption.
  split_and!; [reflexivity|reflexivity|].
  intros Hne E. apply Hne. eapply app_inv_tail_string. exact E.
Qed.

(** X28, for [demo_repository]. *)
Lemma repository_dirs_below_base_witness :
  basedir_path demo_env demo_repository = "/srv/repos/alice/repo" /\
  outdir_path demo_env demo_repository = "/srv/www/alice/repo" /\
  basedir_path demo_env demo_repository <> outdir_path demo_env demo_repository.
Proof.
  destruct (repository_dirs_below_base demo_env demo_repository) as (Hb & Ho & Hne);
    try discriminate; try reflexivity;
    try (split; [discriminate|cbn; repeat split; discriminate]).
  split_and!; [exact Hb|exact Ho|apply Hne; discriminate].
Defined.

(** X29: for a repository whose name begins with a slash, [basedir] and
    [outdir] are both the name itself, whatever the settings and the
    user: the directory of the repository tool is the published one. *)
Theorem repository_name_absolute env r :
  Py.startswith (repo_name r) "/" = true ->
  basedir_path env r = repo_name r /\
  outdir_path env r = repo_name r /\
  keypath env r = OsPath.join (repo_name r) "repo.key".
Proof.
  intros H.
  assert (J : forall a, OsPath.join a (repo_name r) = repo_name r)
    by (intros a; unfold OsPath.join; rewrite H; reflexivity).
  unfold keypath, basedir_path, outdir_path, OsPath.join3. rewrite !J. auto.
Qed.

(** X29, for the repository named [/etc]. *)
Lemma repository_name_absolute_witness :
  basedir_path demo_env absolute_repository = "/etc" /\
  outdir_path demo_env absolute_repository = "/etc" /\
  keypath demo_env absolute_repository = "/etc/repo.key".
Proof. apply (repository_name_absolute demo_env absolute_repository). reflexivity. Defined.
